(** * hand_ocr: the document data model and its flat projections

    A shallow embedding of [src/data_models.py]: the field validators of
    the entity records ([clean_phone], [parse_price] and its three copies,
    [parse_date]) and the two tabular projections of [StructuredDocument]
    ([to_flat_dict], [to_line_items_list]).

    Python values are embedded as follows.
    - [str] is [string]; a character is read as a code point below 256.
    - [Decimal] is a finite triple of sign, coefficient and exponent, as
      in [Decimal.as_tuple].
    - [date] is a triple of integers built through a checking constructor.
    - [dict] with [str] keys is [gmap string pyval]; [d.update(e)] is the
      union that prefers [e].
    - an exception caught by [except:] is [None] in an [option]. *)

From stdpp Require Import gmap strings list.
From Stdlib Require Import ZArith Ascii String SpecFloat.

Local Open Scope string_scope.
Local Open Scope Z_scope.

(** ** Text *)

Abbreviation chars := list_ascii_of_string.
Abbreviation text := string_of_list_ascii.

Definition code (c : ascii) : N := N_of_ascii c.

(** [\d] on the code points below 256. *)
Definition is_digit (c : ascii) : bool :=
  ((48 <=? code c) && (code c <=? 57))%N.

(** [\s], which is also what [str.strip] removes: TAB..CR, FS..US, the
    space, NEL and the no-break space. *)
Definition is_space (c : ascii) : bool :=
  (((9 <=? code c) && (code c <=? 13)) || ((28 <=? code c) && (code c <=? 32))
   || (code c =? 133) || (code c =? 160))%N.

Definition is_char (x c : ascii) : bool := (code c =? code x)%N.

(** [re.sub('[^...]', '', v)]: the characters of the class are kept. *)
Definition re_sub_keep (keep : ascii -> bool) (v : list ascii) : list ascii :=
  List.filter keep v.

Fixpoint lstrip (v : list ascii) : list ascii :=
  match v with
  | c :: v' => if is_space c then lstrip v' else v
  | [] => []
  end.

Definition rstrip (v : list ascii) : list ascii := rev (lstrip (rev v)).

Definition strip (v : list ascii) : list ascii := rstrip (lstrip v).

(** [int(g)] on a run of digits. *)
Definition digit_value (c : ascii) : Z := Z.of_N (code c) - 48.

Definition int_of_digits (g : list ascii) : Z :=
  fold_left (fun acc c => 10 * acc + digit_value c) g 0.

(** ** Decimal *)

(** A finite [Decimal]: [(-1)^sign * coefficient * 10^exponent]. *)
Record Decimal := mkDecimal {
  dec_sign : bool;
  dec_coefficient : N;
  dec_exponent : Z
}.

(** [bool(d)] of a finite decimal. *)
Definition Decimal_bool (d : Decimal) : bool :=
  negb (dec_coefficient d =? 0)%N.

Definition Decimal_is_zero (d : Decimal) : Prop := dec_coefficient d = 0%N.

(** The exact value, as a fraction [numerator / denominator]. *)
Definition Decimal_numerator (d : Decimal) : Z :=
  let m := Z.of_N (dec_coefficient d) * 10 ^ Z.max 0 (dec_exponent d) in
  if dec_sign d then - m else m.

Definition Decimal_denominator (d : Decimal) : Z :=
  10 ^ Z.max 0 (- dec_exponent d).

(** [d] denotes the fraction [n / m]. *)
Definition Decimal_denotes (d : Decimal) (n m : Z) : Prop :=
  0 < m /\ Decimal_numerator d * m = n * Decimal_denominator d.

Definition take_while (p : ascii -> bool) : list ascii -> list ascii :=
  fix go v := match v with
              | c :: v' => if p c then c :: go v' else []
              | [] => []
              end.

Definition drop_while (p : ascii -> bool) : list ascii -> list ascii :=
  fix go v := match v with
              | c :: v' => if p c then go v' else v
              | [] => []
              end.

Definition nonempty (v : list ascii) : bool :=
  match v with [] => false | _ => true end.

(** The exponent part of a numeric string: [E], an optional sign, digits. *)
Definition exponent_part (v : list ascii) : option Z :=
  match v with
  | [] => Some 0
  | e :: v' =>
      if is_char "E" e || is_char "e" e then
        let '(neg, ds) :=
          match v' with
          | s :: r => if is_char "-" s then (true, r)
                      else if is_char "+" s then (false, r) else (false, v')
          | [] => (false, v')
          end in
        if nonempty ds && forallb is_digit ds
        then Some (if neg then - int_of_digits ds else int_of_digits ds)
        else None
      else None
  end.

(** The number part: digits, an optional fraction, an optional exponent,
    with a digit in the integer part or right after the point. *)
Definition number_part (neg : bool) (v : list ascii) : option Decimal :=
  let ip := take_while is_digit v in
  let r := drop_while is_digit v in
  let '(fp, r') :=
    match r with
    | p :: r1 => if is_char "." p
                 then (take_while is_digit r1, drop_while is_digit r1)
                 else ([], r)
    | [] => ([], r)
    end in
  if nonempty ip || nonempty fp then
    match exponent_part r' with
    | Some e => Some (mkDecimal neg (Z.to_N (int_of_digits (ip ++ fp)%list))
                                (e - Z.of_nat (List.length fp)))
    | None => None
    end
  else None.

(** [Decimal(v)] for a text [v], on the finite numbers:
    whitespace around is dropped, underscores are dropped, then an
    optional sign and the number part must fill the whole text. [None] is
    [InvalidOperation], or a text that names an infinity or a NaN. *)
Definition Decimal_of_str (v : list ascii) : option Decimal :=
  let w := List.filter (fun c => negb (is_char "_" c)) (strip v) in
  match w with
  | s :: r => if is_char "-" s then number_part true r
              else if is_char "+" s then number_part false r
              else number_part false w
  | [] => None
  end.

(** ** Dates *)

Record date := mkdate { year : Z; month : Z; day : Z }.

Definition is_leap (y : Z) : bool :=
  (y mod 4 =? 0) && (negb (y mod 100 =? 0) || (y mod 400 =? 0)).

Definition days_in_month (y m : Z) : Z :=
  if m =? 2 then (if is_leap y then 29 else 28)
  else if (m =? 4) || (m =? 6) || (m =? 9) || (m =? 11) then 30
  else 31.

(** [date(y, m, d)]; [None] is the [ValueError] of a date off the
    calendar. *)
Definition date_new (y m d : Z) : option date :=
  if (1 <=? y) && (y <=? 9999) && (1 <=? m) && (m <=? 12)
     && (1 <=? d) && (d <=? days_in_month y m)
  then Some (mkdate y m d) else None.

(** A naive [datetime]: a date and the microsecond of the day. *)
Record datetime := mkdatetime { dt_date : date; dt_microsecond : N }.

(** ** The date patterns *)

(** The patterns of [parse_date] use two atoms: a capturing group of a
    bounded run of digits, [(\d{lo,hi})], and the separator [[/-]]. *)
Inductive atom :=
| Digits (lo hi : nat)
| Sep.

Definition pattern := list atom.

Definition atom_eqb (a b : atom) : bool :=
  match a, b with
  | Digits l h, Digits l' h' => Nat.eqb l l' && Nat.eqb h h'
  | Sep, Sep => true
  | _, _ => false
  end.

Fixpoint pattern_eqb (p q : pattern) : bool :=
  match p, q with
  | [], [] => true
  | a :: p', b :: q' => atom_eqb a b && pattern_eqb p' q'
  | _, _ => false
  end.

Definition is_sep (c : ascii) : bool := is_char "/" c || is_char "-" c.

(** The greedy choice of a repetition count: [k], then [k - 1], down to
    [lo]. *)
Fixpoint try_down {A} (f : nat -> option A) (lo k : nat) : option A :=
  if Nat.ltb k lo then None
  else match f k with
       | Some r => Some r
       | None => match k with
                 | O => None
                 | S k' => try_down f lo k'
                 end
       end.

(** A backtracking match of the pattern at the head of [v]; the result
    is the text of the groups. *)
Fixpoint match_here (p : pattern) (v : list ascii) : option (list (list ascii)) :=
  match p with
  | [] => Some []
  | Sep :: p' =>
      match v with
      | c :: v' => if is_sep c then match_here p' v' else None
      | [] => None
      end
  | Digits lo hi :: p' =>
      let avail := List.length (take_while is_digit (firstn hi v)) in
      try_down (fun k => match match_here p' (skipn k v) with
                         | Some gs => Some (firstn k v :: gs)
                         | None => None
                         end) lo avail
  end.

(** [re.search(p, v)]: the match at the leftmost position that has one. *)
Fixpoint re_search (p : pattern) (v : list ascii) : option (list (list ascii)) :=
  match match_here p v with
  | Some gs => Some gs
  | None => match v with
            | _ :: v' => re_search p v'
            | [] => None
            end
  end.

Definition date_patterns : list pattern :=
  [ [Digits 1 2; Sep; Digits 1 2; Sep; Digits 4 4];
    [Digits 4 4; Sep; Digits 1 2; Sep; Digits 1 2];
    [Digits 1 2; Sep; Digits 1 2; Sep; Digits 2 2] ].

(** ** Values *)

(** A Python [float]. [float_of_Decimal d] stands for [float(d)], the
    binary64 number nearest to [d]; the rounding is the interpreter's and
    is not unfolded. *)
Inductive float64 :=
| binary64 (f : spec_float)
| float_of_Decimal (d : Decimal).

Inductive pyval :=
| PyNone
| PyBool (b : bool)
| PyInt (z : Z)
| PyFloat (f : float64)
| PyStr (s : string)
| PyDecimal (d : Decimal)
| PyDate (d : date)
| PyDatetime (t : datetime).

(** ** The field validators *)

(** [ContactInfo.clean_phone]. *)
Definition phone_keep (c : ascii) : bool :=
  is_digit c || is_char "+" c || is_char "-" c || is_char "(" c
  || is_char ")" c || is_space c.

Definition clean_phone (v : option string) : option string :=
  match v with
  | Some s =>
      if nonempty (chars s)
      then Some (text (strip (re_sub_keep phone_keep (chars s))))
      else v
  | None => v
  end.

(** [LineItem.parse_price]. The cleaned text holds digits, points and
    minus signs only, so [Decimal] either raises or gives a finite
    number. *)
Definition price_keep (c : ascii) : bool :=
  is_digit c || is_char "." c || is_char "," c || is_char "-" c.

Definition remove_commas (v : list ascii) : list ascii :=
  List.filter (fun c => negb (is_char "," c)) v.

Definition parse_price (v : pyval) : pyval :=
  match v with
  | PyNone => PyNone
  | PyStr s =>
      let cleaned := re_sub_keep price_keep (chars s) in
      if nonempty cleaned then
        match Decimal_of_str (remove_commas cleaned) with
        | Some d => PyDecimal d
        | None => PyNone
        end
      else v
  | _ => v
  end.

(** [TaxInfo.parse_tax_amount], [PaymentInfo.parse_amount] and
    [StructuredDocument.parse_amounts] repeat the body of [parse_price]
    word for word. *)
Definition parse_tax_amount : pyval -> pyval := parse_price.
Definition parse_amount : pyval -> pyval := parse_price.
Definition parse_amounts : pyval -> pyval := parse_price.

(** What the model class does with the value a [pre=True] validator
    hands back for an [Optional[Decimal]] field. *)
Inductive validated (A : Type) :=
| Valid (a : A)
| ValidationError.
Arguments Valid {A} a.
Arguments ValidationError {A}.

(** The library's validator of a [Decimal] field at a text:
    [Decimal(v.strip())], which must parse and be finite. *)
Definition decimal_validator (s : string) : validated Decimal :=
  match Decimal_of_str (chars s) with
  | Some d => Valid d
  | None => ValidationError
  end.

(** The field validation that follows a [pre=True] validator on an
    [Optional[Decimal]] field: [None] and a [Decimal] are kept, anything
    else goes through its [str]. The builtin [str] on values that are
    not text is a parameter. *)
Section Field.
Variable str_of : pyval -> string.

Definition Optional_Decimal_field (v : pyval) : validated (option Decimal) :=
  match v with
  | PyNone => Valid None
  | PyDecimal d => Valid (Some d)
  | PyStr s =>
      match decimal_validator s with
      | Valid d => Valid (Some d)
      | ValidationError => ValidationError
      end
  | _ =>
      match decimal_validator (str_of v) with
      | Valid d => Valid (Some d)
      | ValidationError => ValidationError
      end
  end.

(** [LineItem(unit_price=v)], [LineItem(total_price=v)] and the other
    six amount fields: the [pre] validator, then the field. *)
Definition amount_field (pre : pyval -> pyval) (v : pyval)
  : validated (option Decimal) :=
  Optional_Decimal_field (pre v).
End Field.

(** [DocumentInfo.parse_date]: the body of the [try] block; [None] is an
    exception, after which the loop goes on. [first] is the test
    [pattern == date_patterns[0]]. *)
Definition build_date (first : bool) (groups : list (list ascii)) : option date :=
  match groups with
  | [g0; g1; g2] =>
      let year :=
        if Nat.eqb (List.length g2) 2
        then (let y := int_of_digits g2 in
              if y <? 50 then 2000 + y else 1900 + y)
        else int_of_digits g2 in
      if first
      then date_new year (int_of_digits g0) (int_of_digits g1)
      else date_new year (int_of_digits g1) (int_of_digits g2)
  | _ => None
  end.

Definition is_first_pattern (p : pattern) : bool :=
  match date_patterns with
  | p0 :: _ => pattern_eqb p p0
  | [] => false
  end.

(** One turn of the loop: [Some d] when the loop returns [d], [None]
    when it goes on to the next pattern. *)
Definition try_pattern (p : pattern) (v : list ascii) : option date :=
  match re_search p v with
  | Some groups => build_date (is_first_pattern p) groups
  | None => None
  end.

Fixpoint parse_date_loop (ps : list pattern) (v : list ascii) : option date :=
  match ps with
  | p :: ps' =>
      match try_pattern p v with
      | Some d => Some d
      | None => parse_date_loop ps' v
      end
  | [] => None
  end.

Definition parse_date (v : pyval) : pyval :=
  match v with
  | PyNone => PyNone
  | PyStr s =>
      match parse_date_loop date_patterns (chars s) with
      | Some d => PyDate d
      | None => v
      end
  | _ => v
  end.

(** The first pattern of the list, in order, that matches somewhere in
    the text. *)
Fixpoint first_matching (ps : list pattern) (v : list ascii) : option pattern :=
  match ps with
  | p :: ps' =>
      match re_search p v with
      | Some _ => Some p
      | None => first_matching ps' v
      end
  | [] => None
  end.

(** ** The entity records *)

Record ContactInfo := mkContactInfo {
  name : option string;
  email : option string;
  phone : option string;
  address : option string;
  city : option string;
  state : option string;
  postal_code : option string;
  country : option string
}.

(** [Union[int, float]]. *)
Inductive number :=
| Int (z : Z)
| Float (f : float64).

Record LineItem := mkLineItem {
  item_name : option string;
  quantity : option number;
  unit_price : option Decimal;
  total_price : option Decimal;
  item_code : option string;
  category : option string
}.

Record TaxInfo := mkTaxInfo {
  tax_rate : option float64;
  tax_amount : option Decimal;
  tax_type : option string
}.

Record PaymentInfo := mkPaymentInfo {
  payment_method : option string;
  payment_terms : option string;
  due_date : option date;
  paid_amount : option Decimal;
  balance_due : option Decimal
}.

Record DocumentInfo := mkDocumentInfo {
  document_type : option string;
  document_number : option string;
  document_date : option date;
  reference_number : option string
}.

Record StructuredDocument := mkStructuredDocument {
  document_info : DocumentInfo;
  vendor : ContactInfo;
  customer : ContactInfo;
  line_items : list LineItem;
  subtotal : option Decimal;
  tax_info : TaxInfo;
  total_amount : option Decimal;
  payment_info : PaymentInfo;
  notes : option string;
  currency : option string;
  source_filename : option string;
  processed_at : option datetime;
  confidence_score : option float64
}.

(** ** Flattening *)

(** A dict display [{k1: v1, ...}] with distinct keys. *)
Definition dict (items : list (string * pyval)) : gmap string pyval :=
  list_to_map items.

(** [d.update(e)]. *)
Definition update (d e : gmap string pyval) : gmap string pyval := e ∪ d.

Definition of_str (o : option string) : pyval :=
  match o with Some s => PyStr s | None => PyNone end.

Definition of_date (o : option date) : pyval :=
  match o with Some d => PyDate d | None => PyNone end.

Definition of_datetime (o : option datetime) : pyval :=
  match o with Some t => PyDatetime t | None => PyNone end.

Definition of_float (o : option float64) : pyval :=
  match o with Some f => PyFloat f | None => PyNone end.

Definition of_number (o : option number) : pyval :=
  match o with
  | Some (Int z) => PyInt z
  | Some (Float f) => PyFloat f
  | None => PyNone
  end.

(** [float(x) if x else None]. *)
Definition float_if (x : option Decimal) : pyval :=
  match x with
  | Some d => if Decimal_bool d then PyFloat (float_of_Decimal d) else PyNone
  | None => PyNone
  end.

Definition document_fields (self : StructuredDocument) : list (string * pyval) :=
  [ ("document_type", of_str (document_type (document_info self)));
    ("document_number", of_str (document_number (document_info self)));
    ("document_date", of_date (document_date (document_info self)));
    ("reference_number", of_str (reference_number (document_info self)));
    ("vendor_name", of_str (name (vendor self)));
    ("vendor_email", of_str (email (vendor self)));
    ("vendor_phone", of_str (phone (vendor self)));
    ("vendor_address", of_str (address (vendor self)));
    ("vendor_city", of_str (city (vendor self)));
    ("vendor_state", of_str (state (vendor self)));
    ("vendor_postal_code", of_str (postal_code (vendor self)));
    ("vendor_country", of_str (country (vendor self)));
    ("customer_name", of_str (name (customer self)));
    ("customer_email", of_str (email (customer self)));
    ("customer_phone", of_str (phone (customer self)));
    ("customer_address", of_str (address (customer self)));
    ("customer_city", of_str (city (customer self)));
    ("customer_state", of_str (state (customer self)));
    ("customer_postal_code", of_str (postal_code (customer self)));
    ("customer_country", of_str (country (customer self)));
    ("subtotal", float_if (subtotal self));
    ("tax_rate", of_float (tax_rate (tax_info self)));
    ("tax_amount", float_if (tax_amount (tax_info self)));
    ("tax_type", of_str (tax_type (tax_info self)));
    ("total_amount", float_if (total_amount self));
    ("currency", of_str (currency self));
    ("payment_method", of_str (payment_method (payment_info self)));
    ("payment_terms", of_str (payment_terms (payment_info self)));
    ("due_date", of_date (due_date (payment_info self)));
    ("paid_amount", float_if (paid_amount (payment_info self)));
    ("balance_due", float_if (balance_due (payment_info self)));
    ("notes", of_str (notes self));
    ("source_filename", of_str (source_filename self));
    ("processed_at", of_datetime (processed_at self));
    ("confidence_score", of_float (confidence_score self)) ].

(** The six entries both projections take from one line item. *)
Definition item_fields (item : LineItem) : list (string * pyval) :=
  [ ("item_name", of_str (item_name item));
    ("quantity", of_number (quantity item));
    ("unit_price", float_if (unit_price item));
    ("item_total_price", float_if (total_price item));
    ("item_code", of_str (item_code item));
    ("item_category", of_str (category item)) ].

Definition no_item_fields : list (string * pyval) :=
  [ ("item_name", PyNone);
    ("quantity", PyNone);
    ("unit_price", PyNone);
    ("item_total_price", PyNone);
    ("item_code", PyNone);
    ("item_category", PyNone) ].

(** [StructuredDocument.to_flat_dict]. *)
Definition to_flat_dict (self : StructuredDocument) : gmap string pyval :=
  let flat_dict := dict (document_fields self) in
  match line_items self with
  | first_item :: _ =>
      update flat_dict
        (dict (item_fields first_item ++
               [("total_line_items",
                 PyInt (Z.of_nat (List.length (line_items self))))]))
  | [] =>
      update flat_dict (dict (no_item_fields ++ [("total_line_items", PyInt 0)]))
  end.

(** [StructuredDocument.to_line_items_list]; [enumerate] is [imap]. *)
Definition to_line_items_list (self : StructuredDocument)
  : list (gmap string pyval) :=
  match line_items self with
  | [] => [to_flat_dict self]
  | _ =>
      let base_dict := to_flat_dict self in
      imap (fun i item =>
              update base_dict
                (dict (item_fields item ++
                       [("line_item_number", PyInt (Z.of_nat i + 1))])))
           (line_items self)
  end.

(** The keys of the flat projection, and the keys one line item sets. *)
Definition item_keys : list string :=
  [ "item_name"; "quantity"; "unit_price"; "item_total_price"; "item_code";
    "item_category" ].

Definition document_keys : list string :=
  [ "document_type"; "document_number"; "document_date"; "reference_number";
    "vendor_name"; "vendor_email"; "vendor_phone"; "vendor_address";
    "vendor_city"; "vendor_state"; "vendor_postal_code"; "vendor_country";
    "customer_name"; "customer_email"; "customer_phone"; "customer_address";
    "customer_city"; "customer_state"; "customer_postal_code";
    "customer_country";
    "subtotal"; "tax_rate"; "tax_amount"; "tax_type"; "total_amount";
    "currency";
    "payment_method"; "payment_terms"; "due_date"; "paid_amount";
    "balance_due";
    "notes"; "source_filename"; "processed_at"; "confidence_score" ].

Definition flat_keys : gset string :=
  list_to_set (item_keys ++ ["total_line_items"]) ∪ list_to_set document_keys.

(** ** Statements *)

(** The characters [clean_phone] is meant to keep. *)
Definition phone_class (c : ascii) : Prop :=
  is_digit c = true \/ c = "+"%char \/ c = "-"%char \/ c = "("%char
  \/ c = ")"%char \/ is_space c = true.

(** [r] is [v] without the characters outside the phone class and
    without the whitespace at either end. *)
Definition phone_cleaning (v r : list ascii) : Prop :=
  (exists l t, List.filter phone_keep v = (l ++ r ++ t)%list
               /\ Forall (fun c => is_space c = true) l
               /\ Forall (fun c => is_space c = true) t)
  /\ Forall phone_class r
  /\ (forall c, head r = Some c -> is_space c = false)
  /\ (forall c, last r = Some c -> is_space c = false).

(** "The first pattern that matches decides": whenever the parser
    gives a date, it is the date built from the match of the first
    pattern, in order, that matches the text. *)
Definition first_match_decides (s : string) : Prop :=
  forall p d,
    first_matching date_patterns (chars s) = Some p ->
    parse_date (PyStr s) = PyDate d ->
    try_pattern p (chars s) = Some d.

(** Two documents give rows with the same columns. *)
Definition uniform_columns (a b : StructuredDocument) : Prop :=
  forall row row' : gmap string pyval,
    row ∈ to_line_items_list a -> row' ∈ to_line_items_list b ->
    dom row = dom row'.

(** The columns of the rows of a document. *)
Definition row_keys (self : StructuredDocument) : gset string :=
  match line_items self with
  | [] => flat_keys
  | _ => flat_keys ∪ {["line_item_number"]}
  end.

(** An amount that is zero is exported as [None]. *)
Definition blank_if_zero (x : option Decimal) (v : option pyval) : Prop :=
  forall z, x = Some z -> Decimal_is_zero z -> v = Some PyNone.

(** A key of the document level: none of the six item keys, and not
    the row number. *)
Definition document_level (k : string) : Prop :=
  (k ∉ item_keys) /\ (k ≠ "line_item_number").

(** [row] is the row of the item at index [i] (from 0). *)
Definition row_of_item (self : StructuredDocument) (i : nat) (item : LineItem)
    (row : gmap string pyval) : Prop :=
  row !! "line_item_number" = Some (PyInt (Z.of_nat i + 1))
  /\ row !! "item_name" = Some (of_str (item_name item))
  /\ row !! "quantity" = Some (of_number (quantity item))
  /\ row !! "unit_price" = Some (float_if (unit_price item))
  /\ row !! "item_total_price" = Some (float_if (total_price item))
  /\ row !! "item_code" = Some (of_str (item_code item))
  /\ row !! "item_category" = Some (of_str (category item))
  /\ forall k, document_level k -> row !! k = to_flat_dict self !! k.

Definition line_item_rows (self : StructuredDocument) : Prop :=
  List.length (to_line_items_list self) = List.length (line_items self)
  /\ (forall (i : nat) (item : LineItem),
         line_items self !! i = Some item ->
         exists row, to_line_items_list self !! i = Some row
                     /\ row_of_item self i item row)
  /\ (forall row row' : gmap string pyval,
         row ∈ to_line_items_list self -> row' ∈ to_line_items_list self ->
         forall k, document_level k -> row !! k = row' !! k).

Definition single_blank_row (self : StructuredDocument) : Prop :=
  to_line_items_list self = [to_flat_dict self]
  /\ (forall k, k ∈ item_keys -> to_flat_dict self !! k = Some PyNone)
  /\ to_flat_dict self !! "total_line_items" = Some (PyInt 0).

(** ** Sample documents *)

Definition no_contact : ContactInfo :=
  mkContactInfo None None None None None None None None.

Definition stamp : datetime := mkdatetime (mkdate 2024 3 15) 0.

(** [StructuredDocument(source_filename="scan.png", processed_at=stamp)]. *)
Definition empty_document : StructuredDocument :=
  mkStructuredDocument
    (mkDocumentInfo None None None None) no_contact no_contact []
    None (mkTaxInfo None None None) None
    (mkPaymentInfo None None None None None)
    None (Some "USD") (Some "scan.png") (Some stamp) None.

Definition zero : Decimal := mkDecimal false 0 (-2).

Definition pen : LineItem :=
  mkLineItem (Some "pen") (Some (Int 2)) (Some (mkDecimal false 150 (-2)))
             (Some (mkDecimal false 300 (-2))) (Some "P-1") None.

(** A free sample: quantity 0, both prices 0.00. *)
Definition sample : LineItem :=
  mkLineItem (Some "sample") (Some (Int 0)) (Some zero) (Some zero) None None.

Definition with_items (items : list LineItem) : StructuredDocument :=
  mkStructuredDocument
    (mkDocumentInfo (Some "receipt") (Some "R-7") (Some (mkdate 2024 3 15)) None)
    (mkContactInfo (Some "Acme") None (Some "+1 (555) 123-4567") None None None
                   None None)
    no_contact items
    (Some zero) (mkTaxInfo None (Some zero) None) (Some zero)
    (mkPaymentInfo (Some "cash") None None (Some zero) (Some zero))
    None (Some "USD") (Some "scan.png") (Some stamp) None.

Definition one_item_document : StructuredDocument := with_items [pen].

Definition free_document : StructuredDocument := with_items [sample; pen].

(** ** [ContactInfo.validate_email] *)

(** [str.lower] on the code points below 256: the letters A..Z and the
    accented capitals, the multiplication sign apart, move up by 32. *)
Definition lower_char (c : ascii) : ascii :=
  if (((65 <=? code c) && (code c <=? 90))
      || ((192 <=? code c) && (code c <=? 222) && negb (code c =? 215)))%N
  then ascii_of_N (code c + 32)
  else c.

Definition lower (v : list ascii) : list ascii := List.map lower_char v.

(** ['@' in v]. *)
Definition has_at (v : list ascii) : bool := existsb (is_char "@") v.

Definition validate_email (v : option string) : option string :=
  match v with
  | Some s =>
      if nonempty (chars s) && has_at (chars s)
      then Some (text (strip (lower (chars s))))
      else v
  | None => v
  end.

(** ** The callers in [structured_ocr.py] *)

Fixpoint startswith (prefix v : list ascii) : bool :=
  match prefix, v with
  | [], _ => true
  | p :: prefix', c :: v' => is_char p c && startswith prefix' v'
  | _ :: _, [] => false
  end.

Definition endswith (suffix v : list ascii) : bool :=
  startswith (rev suffix) (rev v).

(** The clean-up of the model's answer in [extract_structured_data]:
    [strip], then the opening fence [```json] and the closing fence
    [```] are cut off where they are found. *)
Definition fence_open : list ascii := chars "```json".
Definition fence_close : list ascii := chars "```".

Definition clean_json_text (content : list ascii) : list ascii :=
  let json_text := strip content in
  let json_text :=
    if startswith fence_open json_text then skipn 7 json_text else json_text in
  if endswith fence_close json_text
  then firstn (List.length json_text - 3)%nat json_text
  else json_text.

(** The document built on a failure:
    [StructuredDocument(source_filename=filename,
                        notes=f"<label>: {str(e)}", processed_at=now)];
    every other field takes its default. The labels in the source are
    ["JSON parsing error"], ["Extraction error"] and
    ["Processing error"]. *)
Definition failure_labels : list string :=
  [ "JSON parsing error"; "Extraction error"; "Processing error" ].

Definition failure_document (label filename message : string) (now : datetime)
  : StructuredDocument :=
  mkStructuredDocument
    (mkDocumentInfo None None None None)
    (mkContactInfo None None None None None None None None)
    (mkContactInfo None None None None None None None None)
    []
    None (mkTaxInfo None None None) None
    (mkPaymentInfo None None None None None)
    (Some (label ++ ": " ++ message)) (Some "USD") (Some filename) (Some now)
    None.

(** The rows [save_to_csv] hands to the data frame; [None] is the early
    return on an empty list of documents. *)
Definition csv_rows (documents : list StructuredDocument)
  : option (list (gmap string pyval)) :=
  match documents with
  | [] => None
  | _ =>
      Some (fold_left
              (fun all_items doc =>
                 match line_items doc with
                 | [] => (all_items ++ [to_flat_dict doc])%list
                 | _ => (all_items ++ to_line_items_list doc)%list
                 end)
              documents [])
  end.

(** The test of the summary in [main]:
    [doc.source_filename and not doc.notes.startswith("Error")].
    [None] is the [AttributeError] of [None.startswith]. *)
Definition counts_as_successful (doc : StructuredDocument) : option bool :=
  match source_filename doc with
  | Some f =>
      if nonempty (chars f) then
        match notes doc with
        | Some n => Some (negb (startswith (chars "Error") (chars n)))
        | None => None
        end
      else Some false
  | None => Some false
  end.

(** [sum(1 for doc in documents if ...)]. *)
Fixpoint successful (documents : list StructuredDocument) : option nat :=
  match documents with
  | [] => Some 0%nat
  | doc :: rest =>
      match counts_as_successful doc with
      | Some b =>
          match successful rest with
          | Some n => Some (if b then S n else n)
          | None => None
          end
      | None => None
      end
  end.

(** ** The sections of [handwritten_ocr.py] *)

(** [HandwrittenOCR.split_image_into_sections], as the boxes
    [(upper, lower)] it crops. [overlap_of section_height] is
    [int(section_height * overlap)], a float product that is kept as a
    parameter. [None] is the [ZeroDivisionError] of [height // 0]. *)
Definition split_image_into_sections (overlap_of : Z -> Z)
    (height sections : Z) : option (list (Z * Z)) :=
  if sections =? 0 then None
  else
    let section_height := height / sections in
    let overlap_height := overlap_of section_height in
    Some (List.map
            (fun i => (Z.max (i * section_height - overlap_height) 0,
                       Z.min ((i + 1) * section_height + overlap_height)
                             height))
            (seqZ 0 sections)).

(** ** Statements about the added code *)

Definition digit (c : ascii) : Prop := is_digit c = true.

(** The cleaned amount reads [-]digits[.digits]. *)
Definition amount_chars (neg : bool) (ip : list ascii)
    (fp : option (list ascii)) : list ascii :=
  ((if neg then ["-"%char] else []) ++ ip ++
   match fp with Some f => "."%char :: f | None => [] end)%list.

Definition amount_decimal (neg : bool) (ip : list ascii)
    (fp : option (list ascii)) : Decimal :=
  let f := default [] fp in
  mkDecimal neg (Z.to_N (int_of_digits (ip ++ f)%list))
            (- Z.of_nat (List.length f)).

Definition valid_date (d : date) : Prop :=
  1 <= year d <= 9999 /\ 1 <= month d <= 12
  /\ 1 <= day d <= days_in_month (year d) (month d).

(** A row [y] of the image lies in one of the boxes. *)
Definition in_some_box (boxes : list (Z * Z)) (y : Z) : Prop :=
  exists box, box ∈ boxes /\ fst box <= y < snd box.

(** * Properties *)

(** ** Text *)

Lemma text_chars (s : string) : text (chars s) = s.
Proof. apply string_of_list_ascii_of_string. Qed.

Lemma chars_text (v : list ascii) : chars (text v) = v.
Proof. apply list_ascii_of_string_of_list_ascii. Qed.

Lemma chars_nonempty (s : string) : s ≠ "" -> nonempty (chars s) = true.
Proof. destruct s; [congruence | reflexivity]. Qed.

Lemma lstrip_split (v : list ascii) :
  exists l, v = (l ++ lstrip v)%list /\ Forall (fun c => is_space c = true) l.
Proof.
  induction v as [|c v IH]; simpl.
  - exists []. split; [reflexivity | constructor].
  - destruct (is_space c) eqn:E.
    + destruct IH as (l & Hv & Hl). exists (c :: l). split.
      * simpl. congruence.
      * by constructor.
    + exists []. split; [reflexivity | constructor].
Qed.

Lemma lstrip_head (v : list ascii) (c : ascii) :
  head (lstrip v) = Some c -> is_space c = false.
Proof.
  induction v as [|a v IH]; simpl; [discriminate |].
  destruct (is_space a) eqn:E; [exact IH |].
  simpl. intros [= <-]. exact E.
Qed.

Lemma lstrip_sublist (v : list ascii) : lstrip v `sublist_of` v.
Proof.
  destruct (lstrip_split v) as (l & Hv & _).
  rewrite Hv at 2. apply sublist_inserts_l. reflexivity.
Qed.

Lemma rstrip_split (v : list ascii) :
  exists t, v = (rstrip v ++ t)%list /\ Forall (fun c => is_space c = true) t.
Proof.
  unfold rstrip. destruct (lstrip_split (rev v)) as (l & Hv & Hl).
  exists (rev l). split.
  - rewrite <- rev_app_distr, <- Hv. symmetry. apply rev_involutive.
  - by apply List.Forall_rev.
Qed.

Lemma rstrip_last (v : list ascii) (c : ascii) :
  last (rstrip v) = Some c -> is_space c = false.
Proof.
  unfold rstrip. rewrite rev_alt.
  change (last (reverse (lstrip (rev v))) = Some c -> is_space c = false).
  rewrite last_reverse. apply lstrip_head.
Qed.

Lemma rstrip_head (v : list ascii) (c : ascii) :
  is_space c = false -> head v = Some c -> head (rstrip v) = Some c.
Proof.
  intros Hc Hv. destruct v as [|a v]; [discriminate |].
  simpl in Hv. injection Hv as ->.
  destruct (rstrip_split (c :: v)) as (t & Ht & Hsp).
  destruct (rstrip (c :: v)) as [|b r] eqn:E.
  - simpl in Ht. subst t. inversion Hsp; congruence.
  - simpl in Ht. injection Ht as -> _. reflexivity.
Qed.

(** [strip] removes a run of whitespace at each end and nothing else,
    and what is left neither starts nor ends with whitespace. *)
Lemma strip_spec (v : list ascii) :
  (exists l t, v = (l ++ strip v ++ t)%list
               /\ Forall (fun c => is_space c = true) l
               /\ Forall (fun c => is_space c = true) t)
  /\ (forall c, head (strip v) = Some c -> is_space c = false)
  /\ (forall c, last (strip v) = Some c -> is_space c = false).
Proof.
  unfold strip. split; [| split].
  - destruct (lstrip_split v) as (l & Hv & Hl).
    destruct (rstrip_split (lstrip v)) as (t & Ht & Hsp).
    exists l, t. split; [| by split].
    rewrite <- Ht. exact Hv.
  - intros c Hc.
    destruct (lstrip v) as [|a w] eqn:E; [discriminate |].
    assert (Ha : is_space a = false) by (apply (lstrip_head v); by rewrite E).
    rewrite (rstrip_head (a :: w) a Ha eq_refl) in Hc. congruence.
  - intros c. apply rstrip_last.
Qed.

(** ** [clean_phone] *)

Lemma is_char_eq (x c : ascii) : is_char x c = true -> c = x.
Proof.
  unfold is_char, code. intros H. apply N.eqb_eq in H.
  rewrite <- (ascii_N_embedding c), <- (ascii_N_embedding x). by f_equal.
Qed.

Lemma phone_keep_class (c : ascii) : phone_keep c = true -> phone_class c.
Proof.
  unfold phone_keep, phone_class. intros H.
  apply orb_true_iff in H as [H | H]; [| by repeat right].
  apply orb_true_iff in H as [H | H]; [| apply is_char_eq in H; tauto].
  apply orb_true_iff in H as [H | H]; [| apply is_char_eq in H; tauto].
  apply orb_true_iff in H as [H | H]; [| apply is_char_eq in H; tauto].
  apply orb_true_iff in H as [H | H]; [by left | apply is_char_eq in H; tauto].
Qed.

Lemma Forall_app_inv_mid {A} (P : A -> Prop) (l r t : list A) :
  Forall P (l ++ r ++ t) -> Forall P r.
Proof.
  intros H. apply Forall_app in H as [_ H]. by apply Forall_app in H as [H _].
Qed.

(** C9. For every non-empty phone text, [clean_phone] keeps only
    digits, [+], [-], [(], [)] and whitespace, in their order, and trims
    the whitespace at both ends; on ["+1 (555) 123-4567 ext.9"] it
    returns ["+1 (555) 123-4567 9"]. *)
Theorem clean_phone_keeps_class_and_trims :
  clean_phone (Some "+1 (555) 123-4567 ext.9") = Some "+1 (555) 123-4567 9"
  /\ forall s : string, s ≠ "" ->
       exists r, clean_phone (Some s) = Some (text r)
                 /\ phone_cleaning (chars s) r.
Proof.
  split; [reflexivity |].
  intros s Hs. unfold clean_phone. rewrite (chars_nonempty s Hs).
  exists (strip (re_sub_keep phone_keep (chars s))). split; [reflexivity |].
  destruct (strip_spec (re_sub_keep phone_keep (chars s)))
    as ((l & t & Heq & Hl & Ht) & Hhead & Hlast).
  unfold phone_cleaning. split; [| split; [| split]]; try assumption.
  - exists l, t. by split.
  - apply (Forall_app_inv_mid _ l _ t). rewrite <- Heq.
    unfold re_sub_keep. apply Forall_forall. intros c Hc.
    apply list_elem_of_In, filter_In in Hc. apply phone_keep_class, Hc.
Qed.

Lemma clean_phone_keeps_class_and_trims_witness :
  "  tel: (555) 0101 " ≠ ""
  /\ exists r, clean_phone (Some "  tel: (555) 0101 ") = Some (text r)
               /\ phone_cleaning (chars "  tel: (555) 0101 ") r.
Proof.
  split; [discriminate |].
  apply (proj2 clean_phone_keeps_class_and_trims). discriminate.
Defined.

(** ** [Decimal] and the amount validators *)

Lemma take_while_elem (p : ascii -> bool) (v : list ascii) (c : ascii) :
  c ∈ take_while p v -> c ∈ v /\ p c = true.
Proof.
  induction v as [|a v IH]; simpl; [by intros ?%elem_of_nil |].
  destruct (p a) eqn:E; [| by intros ?%elem_of_nil].
  intros [-> | H]%elem_of_cons.
  - split; [left | exact E].
  - destruct (IH H). split; [by right | done].
Qed.

Lemma drop_while_elem (p : ascii -> bool) (v : list ascii) (c : ascii) :
  c ∈ drop_while p v -> c ∈ v.
Proof.
  induction v as [|a v IH]; simpl; [done |].
  destruct (p a); [| done]. intros H. right. by apply IH.
Qed.

Lemma nonempty_elem (v : list ascii) : nonempty v = true -> exists c, c ∈ v.
Proof. destruct v as [|c v]; [discriminate |]. exists c. left. Qed.

Lemma strip_elem (v : list ascii) (c : ascii) : c ∈ strip v -> c ∈ v.
Proof.
  destruct (strip_spec v) as ((l & t & Hv & _) & _). intros H.
  rewrite Hv. apply elem_of_app. right. apply elem_of_app. by left.
Qed.

(** A numeric string has a digit. *)
Lemma number_part_digit (neg : bool) (v : list ascii) (d : Decimal) :
  number_part neg v = Some d -> exists c, c ∈ v /\ is_digit c = true.
Proof.
  unfold number_part.
  destruct (nonempty (take_while is_digit v)) eqn:Hip.
  - intros _. destruct (nonempty_elem _ Hip) as (c & Hc).
    exists c. by apply take_while_elem.
  - destruct (drop_while is_digit v) as [|p r1] eqn:Hr; [discriminate |].
    destruct (is_char "." p); [| discriminate].
    destruct (nonempty (take_while is_digit r1)) eqn:Hfp; [| discriminate].
    intros _. destruct (nonempty_elem _ Hfp) as (c & Hc).
    apply take_while_elem in Hc as [Hc Hd]. exists c. split; [| done].
    apply (drop_while_elem is_digit). rewrite Hr. by right.
Qed.

Lemma Decimal_of_str_digit (v : list ascii) (d : Decimal) :
  Decimal_of_str v = Some d -> exists c, c ∈ v /\ is_digit c = true.
Proof.
  unfold Decimal_of_str.
  set (w := List.filter _ (strip v)).
  assert (Hw : forall c, c ∈ w -> c ∈ v).
  { intros c Hc. apply strip_elem.
    apply list_elem_of_In, filter_In in Hc as [Hc _]. by apply list_elem_of_In. }
  destruct w as [|a r]; [discriminate |].
  assert (Hr : number_part true r = Some d \/ number_part false r = Some d
               \/ number_part false (a :: r) = Some d ->
               exists c, c ∈ v /\ is_digit c = true).
  { intros [H | [H | H]]; apply number_part_digit in H as (c & Hc & Hd);
      exists c; (split; [apply Hw | done]); try (by right); done. }
  destruct (is_char "-" a); [tauto |]. destruct (is_char "+" a); tauto.
Qed.

(** A text that loses every character in the cleaning is no number. *)
Lemma uncleanable_not_decimal (v : list ascii) :
  re_sub_keep price_keep v = [] -> Decimal_of_str v = None.
Proof.
  intros Hv. destruct (Decimal_of_str v) as [d|] eqn:E; [| reflexivity].
  apply Decimal_of_str_digit in E as (c & Hc & Hd).
  assert (Hin : c ∈ re_sub_keep price_keep v).
  { apply list_elem_of_In, filter_In. split; [by apply list_elem_of_In |].
    unfold price_keep. by rewrite Hd. }
  rewrite Hv in Hin. by apply elem_of_nil in Hin.
Qed.

(** C1. A text for an amount field that cannot be coerced to a decimal
    should give an absent field and never raise. On a text with no
    digit, point, comma or minus sign, such as ["ask cashier"], the
    validator instead hands the text back, and the field validation that
    follows rejects it. *)
Theorem amount_text_without_digits_raises
    (str_of : pyval -> string) (s : string) :
  re_sub_keep price_keep (chars s) = [] ->
  forall pre : pyval -> pyval,
    In pre [parse_price; parse_tax_amount; parse_amount; parse_amounts] ->
    pre (PyStr s) = PyStr s
    /\ amount_field str_of pre (PyStr s) = ValidationError.
Proof.
  intros Hs pre Hpre.
  assert (pre = parse_price) as ->.
  { simpl in Hpre. unfold parse_tax_amount, parse_amount, parse_amounts in Hpre.
    intuition congruence. }
  unfold amount_field, parse_price. rewrite Hs. simpl.
  split; [reflexivity |].
  unfold decimal_validator. by rewrite (uncleanable_not_decimal _ Hs).
Qed.

Lemma amount_text_without_digits_raises_witness :
  re_sub_keep price_keep (chars "ask cashier") = []
  /\ parse_price (PyStr "ask cashier") = PyStr "ask cashier"
  /\ amount_field (fun _ => "") parse_price (PyStr "ask cashier")
     = ValidationError.
Proof.
  split; [reflexivity |].
  apply (amount_text_without_digits_raises (fun _ => "") "ask cashier"
           eq_refl parse_price).
  left. reflexivity.
Defined.

(** The other path of the validator: when the cleaning leaves
    something, the field is built, with the decimal or with [None]. *)
Lemma amount_text_with_digits_is_built
    (str_of : pyval -> string) (s : string) :
  re_sub_keep price_keep (chars s) ≠ [] ->
  exists o : option Decimal,
    amount_field str_of parse_price (PyStr s) = Valid o.
Proof.
  intros Hs. unfold amount_field, parse_price.
  destruct (re_sub_keep price_keep (chars s)) as [|c r]; [done |].
  cbn [nonempty].
  destruct (Decimal_of_str (remove_commas (c :: r))) as [d|]; eauto.
Qed.

(** C3. The reference examples of the currency parser:
    ["$1,234.56"] and ["USD 1234.56"] give 1234.56 and ["  - 12.00 "]
    gives -12.00, as claimed; ["N/A"] and [""] should give absence and
    are handed back unchanged instead. *)
Theorem parse_price_reference_examples :
  parse_price (PyStr "$1,234.56") = PyDecimal (mkDecimal false 123456 (-2))
  /\ Decimal_denotes (mkDecimal false 123456 (-2)) 123456 100
  /\ parse_price (PyStr "USD 1234.56") = PyDecimal (mkDecimal false 123456 (-2))
  /\ parse_price (PyStr "  - 12.00 ") = PyDecimal (mkDecimal true 1200 (-2))
  /\ Decimal_denotes (mkDecimal true 1200 (-2)) (-12) 1
  /\ parse_price (PyStr "N/A") = PyStr "N/A"
  /\ parse_price (PyStr "") = PyStr ""
  /\ parse_price (PyStr "N/A") ≠ PyNone
  /\ parse_price (PyStr "") ≠ PyNone.
Proof.
  repeat split; try reflexivity; try discriminate.
Qed.

(** ** [parse_date] *)

(** C2. The four reference examples of the date parser:
    ["03/15/2024"] gives March 15, 2024, as claimed; ["2024-03-15"]
    should give March 15, 2024 and gives March 15, 2015;
    ["03/15/24"] and ["03/15/76"] should give March 15 of 2024 and of
    1976 and are handed back as text. *)
Theorem parse_date_reference_examples :
  parse_date (PyStr "03/15/2024") = PyDate (mkdate 2024 3 15)
  /\ parse_date (PyStr "2024-03-15") = PyDate (mkdate 2015 3 15)
  /\ parse_date (PyStr "03/15/24") = PyStr "03/15/24"
  /\ parse_date (PyStr "03/15/76") = PyStr "03/15/76".
Proof.
  repeat split; vm_compute; reflexivity.
Qed.

Lemma parse_date_loop_first (ps : list pattern) (v : list ascii) :
  forall (i : nat) (p : pattern) (d : date),
    ps !! i = Some p ->
    try_pattern p v = Some d ->
    (forall (j : nat) (q : pattern),
        (j < i)%nat -> ps !! j = Some q -> try_pattern q v = None) ->
    parse_date_loop ps v = Some d.
Proof.
  induction ps as [|p0 ps IH]; intros i p d Hi Hp Hbefore.
  - by rewrite lookup_nil in Hi.
  - destruct i as [|i]; simpl in *.
    + injection Hi as ->. by rewrite Hp.
    + rewrite (Hbefore 0%nat p0); [| lia | reflexivity].
      apply (IH i p d Hi Hp). intros j q Hj Hq.
      apply (Hbefore (S j) q); [lia | exact Hq].
Qed.

Lemma parse_date_loop_none (ps : list pattern) (v : list ascii) :
  (forall p, p ∈ ps -> re_search p v = None) -> parse_date_loop ps v = None.
Proof.
  induction ps as [|p0 ps IH]; intros H; [reflexivity |].
  simpl. unfold try_pattern at 1. rewrite (H p0); [| by left].
  apply IH. intros p Hp. apply H. by right.
Qed.

(** C4, as the code has it. The patterns are tried in their fixed
    order; a pattern decides the result when it matches and its groups
    give a date of the calendar, and no pattern before it did, even if a
    later pattern would match as well; a text that no pattern matches is
    passed through unchanged. *)
Theorem parse_date_first_valid_pattern (s : string) :
  (forall (i : nat) (p : pattern) (d : date),
      date_patterns !! i = Some p ->
      try_pattern p (chars s) = Some d ->
      (forall (j : nat) (q : pattern),
          (j < i)%nat -> date_patterns !! j = Some q ->
          try_pattern q (chars s) = None) ->
      parse_date (PyStr s) = PyDate d)
  /\ ((forall p, p ∈ date_patterns -> re_search p (chars s) = None) ->
      parse_date (PyStr s) = PyStr s).
Proof.
  split.
  - intros i p d Hi Hp Hbefore. unfold parse_date.
    by rewrite (parse_date_loop_first _ _ i p d Hi Hp Hbefore).
  - intros Hnone. unfold parse_date.
    by rewrite (parse_date_loop_none _ _ Hnone).
Qed.

Lemma parse_date_first_valid_pattern_witness :
  parse_date (PyStr "due 03/15/2024, sent 2024-03-01")
  = PyDate (mkdate 2024 3 15)
  /\ parse_date (PyStr "no date") = PyStr "no date".
Proof.
  split.
  - apply (proj1 (parse_date_first_valid_pattern
                    "due 03/15/2024, sent 2024-03-01") 0%nat
             [Digits 1 2; Sep; Digits 1 2; Sep; Digits 4 4]).
    + reflexivity.
    + vm_compute. reflexivity.
    + intros j q Hj Hq. lia.
  - apply (proj2 (parse_date_first_valid_pattern "no date")).
    intros p Hp. unfold date_patterns in Hp.
    repeat (apply elem_of_cons in Hp as [-> | Hp]; [vm_compute; reflexivity |]).
    by apply elem_of_nil in Hp.
Defined.

(** C4, as claimed, fails on ["31/12/2024 2024-03-15"]: the first
    pattern matches ["31/12/2024"], which is no date of the calendar
    read as month 31, day 12; the date returned comes from the match of
    the second pattern. *)
Lemma first_match_does_not_decide :
  ~ first_match_decides "31/12/2024 2024-03-15".
Proof.
  intros H.
  specialize (H [Digits 1 2; Sep; Digits 1 2; Sep; Digits 4 4]
                (mkdate 2015 3 15)).
  assert (E : try_pattern [Digits 1 2; Sep; Digits 1 2; Sep; Digits 4 4]
                (chars "31/12/2024 2024-03-15") = None)
    by (vm_compute; reflexivity).
  rewrite E in H. discriminate H; vm_compute; reflexivity.
Qed.

(** ** The flat projections *)

Lemma lookup_update_l (d e : gmap string pyval) (k : string) (v : pyval) :
  e !! k = Some v -> update d e !! k = Some v.
Proof. intros H. unfold update. by apply lookup_union_Some_l. Qed.

Lemma lookup_update_r (d e : gmap string pyval) (k : string) :
  e !! k = None -> update d e !! k = d !! k.
Proof. intros H. unfold update. by apply lookup_union_r. Qed.

Lemma dict_fresh (items : list (string * pyval)) (k : string) :
  k ∉ items.*1 -> dict items !! k = None.
Proof. apply not_elem_of_list_to_map_1. Qed.

Lemma dom_dict (items : list (string * pyval)) :
  dom (dict items) = list_to_set (items.*1).
Proof. apply dom_list_to_map_L. Qed.

Lemma dom_update (d e : gmap string pyval) :
  dom (update d e) = dom e ∪ dom d.
Proof. apply dom_union_L. Qed.

Lemma float_if_zero (x : option Decimal) (z : Decimal) :
  x = Some z -> Decimal_is_zero z -> float_if x = PyNone.
Proof.
  intros -> Hz. unfold float_if, Decimal_bool. rewrite Hz. reflexivity.
Qed.

(** The entry of a document-level key comes from the first display. *)
Lemma to_flat_dict_document_level (self : StructuredDocument) (k : string) :
  document_level k -> k ≠ "total_line_items" ->
  to_flat_dict self !! k = dict (document_fields self) !! k.
Proof.
  intros [Hitem Hnum] Htotal. unfold to_flat_dict.
  destruct (line_items self) as [|first rest];
    apply lookup_update_r, dict_fresh; rewrite fmap_app;
    (intros [H | H]%elem_of_app; [by apply Hitem |]);
    by apply list_elem_of_singleton in H.
Qed.

Ltac item_key_fresh :=
  split; [intros H;
          repeat (apply elem_of_cons in H as [H | H]; [discriminate H |]);
          by apply elem_of_nil in H
         | discriminate].

Lemma to_flat_dict_amounts (self : StructuredDocument) :
  to_flat_dict self !! "subtotal" = Some (float_if (subtotal self))
  /\ to_flat_dict self !! "tax_amount"
     = Some (float_if (tax_amount (tax_info self)))
  /\ to_flat_dict self !! "total_amount" = Some (float_if (total_amount self))
  /\ to_flat_dict self !! "paid_amount"
     = Some (float_if (paid_amount (payment_info self)))
  /\ to_flat_dict self !! "balance_due"
     = Some (float_if (balance_due (payment_info self))).
Proof.
  repeat split;
    (rewrite to_flat_dict_document_level;
     [vm_compute; reflexivity | item_key_fresh | discriminate]).
Qed.

Lemma to_flat_dict_first_item (self : StructuredDocument)
    (first : LineItem) (rest : list LineItem) :
  line_items self = first :: rest ->
  to_flat_dict self !! "item_name" = Some (of_str (item_name first))
  /\ to_flat_dict self !! "quantity" = Some (of_number (quantity first))
  /\ to_flat_dict self !! "unit_price" = Some (float_if (unit_price first))
  /\ to_flat_dict self !! "item_total_price"
     = Some (float_if (total_price first))
  /\ to_flat_dict self !! "item_code" = Some (of_str (item_code first))
  /\ to_flat_dict self !! "item_category" = Some (of_str (category first))
  /\ to_flat_dict self !! "total_line_items"
     = Some (PyInt (Z.of_nat (List.length (line_items self)))).
Proof.
  intros H. unfold to_flat_dict. rewrite H.
  repeat split; apply lookup_update_l; vm_compute; reflexivity.
Qed.

Lemma to_flat_dict_no_item (self : StructuredDocument) :
  line_items self = [] ->
  (forall k, k ∈ item_keys -> to_flat_dict self !! k = Some PyNone)
  /\ to_flat_dict self !! "total_line_items" = Some (PyInt 0).
Proof.
  intros H. unfold to_flat_dict. rewrite H. split.
  - intros k Hk. unfold item_keys in Hk.
    repeat (apply elem_of_cons in Hk as [-> | Hk];
            [apply lookup_update_l; vm_compute; reflexivity |]).
    by apply elem_of_nil in Hk.
  - apply lookup_update_l. vm_compute. reflexivity.
Qed.

(** The row of one item, as the loop of [to_line_items_list] builds it. *)
Lemma item_row_spec (self : StructuredDocument) (i : nat) (item : LineItem) :
  row_of_item self i item
    (update (to_flat_dict self)
       (dict (item_fields item ++
              [("line_item_number", PyInt (Z.of_nat i + 1))]))).
Proof.
  unfold row_of_item.
  repeat (split; [apply lookup_update_l; vm_compute; reflexivity |]).
  intros k [Hitem Hnum]. apply lookup_update_r, dict_fresh.
  rewrite fmap_app. intros [H | H]%elem_of_app; [by apply Hitem |].
  by apply list_elem_of_singleton in H.
Qed.

Lemma to_line_items_list_lookup (self : StructuredDocument) (i : nat)
    (item : LineItem) :
  line_items self !! i = Some item ->
  to_line_items_list self !! i
  = Some (update (to_flat_dict self)
            (dict (item_fields item ++
                   [("line_item_number", PyInt (Z.of_nat i + 1))]))).
Proof.
  intros H. unfold to_line_items_list.
  destruct (line_items self) as [|first rest] eqn:E.
  - by rewrite lookup_nil in H.
  - rewrite list_lookup_imap, H. reflexivity.
Qed.

Lemma to_line_items_list_elem (self : StructuredDocument)
    (row : gmap string pyval) :
  line_items self ≠ [] -> row ∈ to_line_items_list self ->
  exists (i : nat) (item : LineItem),
    line_items self !! i = Some item
    /\ row = update (to_flat_dict self)
               (dict (item_fields item ++
                      [("line_item_number", PyInt (Z.of_nat i + 1))])).
Proof.
  intros Hne Hrow. apply list_elem_of_lookup in Hrow as (i & Hi).
  destruct (line_items self !! i) as [item|] eqn:E.
  - exists i, item. split; [exact E |].
    rewrite (to_line_items_list_lookup self i item E) in Hi. congruence.
  - exfalso. unfold to_line_items_list in Hi.
    destruct (line_items self) as [|first rest] eqn:L; [done |].
    rewrite list_lookup_imap, E in Hi. discriminate.
Qed.

(** C7. A document with N >= 1 line items gives exactly N rows; the
    row of the i-th item carries that item's name, quantity, prices,
    code and category and, as [line_item_number], its position counted
    from 1; all rows agree on every document-level key. *)
Theorem to_line_items_list_rows (self : StructuredDocument) :
  line_items self ≠ [] -> line_item_rows self.
Proof.
  intros Hne. unfold line_item_rows. split; [| split].
  - unfold to_line_items_list.
    destruct (line_items self) as [|first rest] eqn:E; [done |].
    apply length_imap.
  - intros i item Hi. eexists. split.
    + by apply to_line_items_list_lookup.
    + apply item_row_spec.
  - intros row row' Hrow Hrow' k Hk.
    apply (to_line_items_list_elem self row Hne) in Hrow as (i & item & _ & ->).
    apply (to_line_items_list_elem self row' Hne) in Hrow' as (j & item' & _ & ->).
    destruct (item_row_spec self i item) as (_ & _ & _ & _ & _ & _ & _ & H).
    destruct (item_row_spec self j item') as (_ & _ & _ & _ & _ & _ & _ & H').
    by rewrite H, H'.
Qed.

Lemma to_line_items_list_rows_witness :
  line_items free_document ≠ [] /\ line_item_rows free_document.
Proof.
  split; [discriminate |].
  apply (to_line_items_list_rows free_document). discriminate.
Defined.

(** C8. A document without line items gives exactly one row, which is
    [to_flat_dict()]; its six item fields are [None] and its
    [total_line_items] is 0. *)
Theorem to_line_items_list_empty (self : StructuredDocument) :
  line_items self = [] -> single_blank_row self.
Proof.
  intros H. unfold single_blank_row. split.
  - unfold to_line_items_list. by rewrite H.
  - by apply to_flat_dict_no_item.
Qed.

Lemma to_line_items_list_empty_witness :
  line_items empty_document = [] /\ single_blank_row empty_document.
Proof.
  split; [reflexivity |].
  apply (to_line_items_list_empty empty_document). reflexivity.
Defined.

(** C6. An amount that is exactly zero — the subtotal, the tax
    amount, the total, the paid amount, the balance due, or a price of
    the exported line item — is exported as [None], not as the number
    0, by [to_flat_dict()] and by the rows of [to_line_items_list()]. *)
Theorem zero_amount_exported_as_None (self : StructuredDocument) :
  blank_if_zero (subtotal self) (to_flat_dict self !! "subtotal")
  /\ blank_if_zero (tax_amount (tax_info self))
                   (to_flat_dict self !! "tax_amount")
  /\ blank_if_zero (total_amount self) (to_flat_dict self !! "total_amount")
  /\ blank_if_zero (paid_amount (payment_info self))
                   (to_flat_dict self !! "paid_amount")
  /\ blank_if_zero (balance_due (payment_info self))
                   (to_flat_dict self !! "balance_due")
  /\ (forall (first : LineItem) (rest : list LineItem),
         line_items self = first :: rest ->
         blank_if_zero (unit_price first) (to_flat_dict self !! "unit_price")
         /\ blank_if_zero (total_price first)
                          (to_flat_dict self !! "item_total_price"))
  /\ (forall (i : nat) (item : LineItem) (row : gmap string pyval),
         line_items self !! i = Some item ->
         to_line_items_list self !! i = Some row ->
         blank_if_zero (unit_price item) (row !! "unit_price")
         /\ blank_if_zero (total_price item) (row !! "item_total_price")).
Proof.
  destruct (to_flat_dict_amounts self) as (H1 & H2 & H3 & H4 & H5).
  assert (Hblank : forall (x : option Decimal) (v : option pyval),
             v = Some (float_if x) -> blank_if_zero x v).
  { intros x v -> z Hx Hz. f_equal. exact (float_if_zero x z Hx Hz). }
  split; [exact (Hblank _ _ H1) |].
  split; [exact (Hblank _ _ H2) |].
  split; [exact (Hblank _ _ H3) |].
  split; [exact (Hblank _ _ H4) |].
  split; [exact (Hblank _ _ H5) |].
  split.
  - intros first rest Hitems.
    destruct (to_flat_dict_first_item self first rest Hitems)
      as (_ & _ & Hu & Ht & _).
    split; [exact (Hblank _ _ Hu) | exact (Hblank _ _ Ht)].
  - intros i item row Hi Hrow.
    rewrite (to_line_items_list_lookup self i item Hi) in Hrow.
    injection Hrow as <-.
    destruct (item_row_spec self i item) as (_ & _ & _ & Hu & Ht & _).
    split; [exact (Hblank _ _ Hu) | exact (Hblank _ _ Ht)].
Qed.

Lemma zero_amount_exported_as_None_witness :
  Decimal_is_zero zero
  /\ to_flat_dict free_document !! "subtotal" = Some PyNone
  /\ to_flat_dict free_document !! "unit_price" = Some PyNone.
Proof.
  split; [reflexivity |].
  destruct (zero_amount_exported_as_None free_document)
    as (Hsub & _ & _ & _ & _ & Hfirst & _).
  split.
  - apply (Hsub zero); reflexivity.
  - apply (proj1 (Hfirst sample [pen] eq_refl) zero); reflexivity.
Defined.

(** C10. The quantity of the exported line item is passed through as
    it is: a quantity of exactly 0 is exported as 0, not as [None], by
    [to_flat_dict()] and by the rows of [to_line_items_list()]. *)
Theorem quantity_exported_as_is (self : StructuredDocument)
    (first : LineItem) (rest : list LineItem) :
  line_items self = first :: rest ->
  to_flat_dict self !! "quantity" = Some (of_number (quantity first))
  /\ (quantity first = Some (Int 0) ->
      to_flat_dict self !! "quantity" = Some (PyInt 0)
      /\ to_flat_dict self !! "quantity" ≠ Some PyNone)
  /\ (forall (i : nat) (item : LineItem) (row : gmap string pyval),
         line_items self !! i = Some item ->
         to_line_items_list self !! i = Some row ->
         row !! "quantity" = Some (of_number (quantity item))).
Proof.
  intros Hitems.
  destruct (to_flat_dict_first_item self first rest Hitems) as (_ & Hq & _).
  split; [exact Hq | split].
  - intros H0. rewrite Hq, H0. split; [reflexivity | discriminate].
  - intros i item row Hi Hrow.
    rewrite (to_line_items_list_lookup self i item Hi) in Hrow.
    injection Hrow as <-.
    destruct (item_row_spec self i item) as (_ & _ & Hr & _). exact Hr.
Qed.

Lemma quantity_exported_as_is_witness :
  line_items free_document = sample :: [pen]
  /\ to_flat_dict free_document !! "quantity" = Some (PyInt 0).
Proof.
  split; [reflexivity |].
  apply (proj1 (proj2 (quantity_exported_as_is free_document sample [pen]
                         eq_refl)) eq_refl).
Defined.

(** ** The columns *)

Lemma dom_to_flat_dict (self : StructuredDocument) :
  dom (to_flat_dict self) = flat_keys.
Proof.
  unfold to_flat_dict, flat_keys.
  destruct (line_items self) as [|first rest];
    rewrite dom_update, !dom_dict; reflexivity.
Qed.

Lemma dom_item_row (self : StructuredDocument) (i : nat) (item : LineItem) :
  dom (update (to_flat_dict self)
         (dict (item_fields item ++
                [("line_item_number", PyInt (Z.of_nat i + 1))])))
  = flat_keys ∪ {["line_item_number"]}.
Proof.
  rewrite dom_update, dom_dict, dom_to_flat_dict, fmap_app.
  change ((item_fields item).*1) with item_keys.
  rewrite list_to_set_app_L. unfold flat_keys. rewrite list_to_set_app_L.
  change (list_to_set [("line_item_number", PyInt (Z.of_nat i + 1))].*1)
    with ({["line_item_number"]} ∪ (∅ : gset string)).
  generalize (list_to_set item_keys : gset string).
  generalize (list_to_set ["total_line_items"] : gset string).
  generalize (list_to_set document_keys : gset string).
  intros D T I. apply set_eq. intros k.
  rewrite !elem_of_union, elem_of_empty. tauto.
Qed.

Lemma dom_rows (self : StructuredDocument) (row : gmap string pyval) :
  row ∈ to_line_items_list self -> dom row = row_keys self.
Proof.
  intros Hrow. unfold row_keys.
  destruct (line_items self) as [|first rest] eqn:E.
  - unfold to_line_items_list in Hrow. rewrite E in Hrow.
    apply list_elem_of_singleton in Hrow as ->. apply dom_to_flat_dict.
  - apply to_line_items_list_elem in Hrow as (i & item & _ & ->);
      [| by rewrite E].
    apply dom_item_row.
Qed.

(** C5, as the code has it. The rows of a document with line items
    have the keys of [to_flat_dict()] and [line_item_number]; the one
    row of a document without line items has the keys of
    [to_flat_dict()] only. Two documents that both have line items, or
    both have none, give rows with the same keys. *)
Theorem rows_have_uniform_columns (a b : StructuredDocument) :
  (line_items a = [] <-> line_items b = []) ->
  uniform_columns a b
  /\ (forall row, row ∈ to_line_items_list a -> dom row = row_keys a)
  /\ dom (to_flat_dict a) = flat_keys.
Proof.
  intros Hab. split; [| split].
  - intros row row' Hrow Hrow'.
    rewrite (dom_rows a row Hrow), (dom_rows b row' Hrow').
    unfold row_keys.
    destruct (line_items a) as [|x xs], (line_items b) as [|y ys].
    + reflexivity.
    + exfalso. pose proof (proj1 Hab eq_refl) as Hb. discriminate Hb.
    + exfalso. pose proof (proj2 Hab eq_refl) as Ha. discriminate Ha.
    + reflexivity.
  - apply dom_rows.
  - apply dom_to_flat_dict.
Qed.

Lemma rows_have_uniform_columns_witness :
  (line_items one_item_document = [] <-> line_items free_document = [])
  /\ uniform_columns one_item_document free_document.
Proof.
  assert (H : line_items one_item_document = []
              <-> line_items free_document = [])
    by (split; discriminate).
  split; [exact H |].
  apply (proj1 (rows_have_uniform_columns one_item_document free_document H)).
Defined.

(** C5, as claimed, fails: the row of a document without line items
    has no [line_item_number], the row of a document with one has. *)
Lemma columns_not_uniform : ~ uniform_columns empty_document one_item_document.
Proof.
  intros H.
  pose (row' := update (to_flat_dict one_item_document)
                  (dict (item_fields pen ++ [("line_item_number", PyInt 1)]))).
  assert (Hdom : dom (to_flat_dict empty_document) = dom row').
  { apply H.
    - change (to_line_items_list empty_document)
        with [to_flat_dict empty_document]. by left.
    - change (to_line_items_list one_item_document) with [row']. by left. }
  assert (Hin : "line_item_number" ∈ dom row').
  { apply elem_of_dom. exists (PyInt 1). vm_compute. reflexivity. }
  rewrite <- Hdom in Hin. apply elem_of_dom in Hin as (v & Hv).
  vm_compute in Hv. discriminate Hv.
Qed.

(** * Further properties *)

(** ** Trimming and filtering *)

Ltac by_char c :=
  destruct c as [[] [] [] [] [] [] [] []]; vm_compute;
  first [reflexivity | discriminate | (intros; discriminate) | tauto].

Lemma space_not_digit (c : ascii) : is_space c = true -> is_digit c = false.
Proof. by_char c. Qed.

Lemma lstrip_id (v : list ascii) :
  (forall c, head v = Some c -> is_space c = false) -> lstrip v = v.
Proof.
  destruct v as [|a v]; [reflexivity |]. intros H. simpl.
  by rewrite (H a eq_refl).
Qed.

Lemma head_rev (v : list ascii) : head (rev v) = last v.
Proof. rewrite rev_alt. apply head_reverse. Qed.

Lemma rstrip_id (v : list ascii) :
  (forall c, last v = Some c -> is_space c = false) -> rstrip v = v.
Proof.
  intros H. unfold rstrip. rewrite lstrip_id.
  - apply rev_involutive.
  - intros c. rewrite head_rev. apply H.
Qed.

Lemma strip_id (v : list ascii) :
  (forall c, head v = Some c -> is_space c = false) ->
  (forall c, last v = Some c -> is_space c = false) ->
  strip v = v.
Proof.
  intros Hh Hl. unfold strip. rewrite (lstrip_id v Hh). by apply rstrip_id.
Qed.

Lemma strip_idempotent (v : list ascii) : strip (strip v) = strip v.
Proof.
  destruct (strip_spec v) as (_ & Hh & Hl). by apply strip_id.
Qed.

Lemma filter_all (p : ascii -> bool) (v : list ascii) :
  (forall c, c ∈ v -> p c = true) -> List.filter p v = v.
Proof.
  induction v as [|a v IH]; intros H; [reflexivity |]. simpl.
  rewrite (H a); [| by left]. f_equal. apply IH. intros c Hc. apply H. by right.
Qed.

Lemma filter_none (p : ascii -> bool) (v : list ascii) :
  (forall c, c ∈ v -> p c = false) -> List.filter p v = [].
Proof.
  induction v as [|a v IH]; intros H; [reflexivity |]. simpl.
  rewrite (H a); [| by left]. apply IH. intros c Hc. apply H. by right.
Qed.

Lemma filter_of_filter (p q : ascii -> bool) (v : list ascii) :
  (forall c, q c = true -> p c = true) ->
  List.filter q (List.filter p v) = List.filter q v.
Proof.
  intros Hqp. induction v as [|a v IH]; [reflexivity |]. simpl.
  destruct (p a) eqn:Ep; simpl.
  - rewrite IH. reflexivity.
  - destruct (q a) eqn:Eq; [| exact IH].
    rewrite (Hqp a Eq) in Ep. discriminate.
Qed.

Lemma filter_elem (p : ascii -> bool) (v : list ascii) (c : ascii) :
  c ∈ List.filter p v -> c ∈ v /\ p c = true.
Proof.
  intros H. apply list_elem_of_In, filter_In in H as [H Hp].
  split; [by apply list_elem_of_In | exact Hp].
Qed.

(** What [strip] removes holds no digit. *)
Lemma filter_digit_strip (v : list ascii) :
  List.filter is_digit (strip v) = List.filter is_digit v.
Proof.
  destruct (strip_spec v) as ((l & t & Hv & Hl & Ht) & _).
  rewrite Hv at 2. rewrite !List.filter_app.
  rewrite (filter_none is_digit l), (filter_none is_digit t).
  - by rewrite app_nil_r.
  - intros c Hc. apply space_not_digit. revert c Hc. by apply Forall_forall.
  - intros c Hc. apply space_not_digit. revert c Hc. by apply Forall_forall.
Qed.

(** ** [clean_phone], further *)

Lemma cleaned_phone_kept (v : list ascii) (c : ascii) :
  c ∈ strip (re_sub_keep phone_keep v) -> phone_keep c = true.
Proof.
  intros H. apply strip_elem in H. by apply filter_elem in H as [_ H].
Qed.

(** X1. Cleaning a phone text twice gives what cleaning it once
    gives. *)
Theorem clean_phone_idempotent (v : option string) :
  clean_phone (clean_phone v) = clean_phone v.
Proof.
  destruct v as [s|]; [| reflexivity].
  unfold clean_phone at 2 3.
  destruct (nonempty (chars s)) eqn:E.
  - unfold clean_phone. rewrite chars_text.
    set (r := strip (re_sub_keep phone_keep (chars s))).
    destruct (nonempty r) eqn:Er; [| reflexivity].
    unfold re_sub_keep at 1.
    rewrite (filter_all phone_keep r) by apply cleaned_phone_kept.
    unfold r. by rewrite strip_idempotent.
  - unfold clean_phone. by rewrite E.
Qed.

(** X2. Cleaning a phone text loses no digit and adds none: the digits
    of the result are the digits of the text, in their order. *)
Theorem clean_phone_keeps_digits (s r : string) :
  clean_phone (Some s) = Some r ->
  List.filter is_digit (chars r) = List.filter is_digit (chars s).
Proof.
  unfold clean_phone. destruct (nonempty (chars s)).
  - intros [= <-]. rewrite chars_text, filter_digit_strip.
    apply filter_of_filter. intros c Hc. unfold phone_keep. by rewrite Hc.
  - by intros [= <-].
Qed.

Lemma clean_phone_keeps_digits_witness :
  clean_phone (Some "tel. 555-0101 (home)") = Some "555-0101 ()"
  /\ List.filter is_digit (chars "555-0101 ()")
     = List.filter is_digit (chars "tel. 555-0101 (home)").
Proof.
  split; [reflexivity |].
  apply (clean_phone_keeps_digits "tel. 555-0101 (home)" "555-0101 ()").
  reflexivity.
Defined.

(** ** [validate_email] *)

Lemma lower_char_idempotent (c : ascii) :
  lower_char (lower_char c) = lower_char c.
Proof. by_char c. Qed.

Lemma lower_char_space (c : ascii) : is_space (lower_char c) = is_space c.
Proof. by_char c. Qed.

Lemma lower_char_at (c : ascii) :
  is_char "@" (lower_char c) = is_char "@" c.
Proof. by_char c. Qed.


Lemma at_not_space (c : ascii) : is_char "@" c = true -> is_space c = false.
Proof. by_char c. Qed.

Lemma lower_fixed (v : list ascii) :
  (forall c, c ∈ v -> lower_char c = c) -> lower v = v.
Proof.
  induction v as [|a v IH]; intros H; [reflexivity |]. simpl.
  rewrite (H a); [| by left]. f_equal. apply IH. intros c Hc. apply H. by right.
Qed.

Lemma lower_elem (v : list ascii) (c : ascii) :
  c ∈ lower v -> lower_char c = c.
Proof.
  unfold lower. intros H. apply list_elem_of_In, in_map_iff in H as (a & <- & _).
  apply lower_char_idempotent.
Qed.

Lemma has_at_lower (v : list ascii) : has_at (lower v) = has_at v.
Proof.
  induction v as [|a v IH]; [reflexivity |]. simpl.
  by rewrite lower_char_at, IH.
Qed.

Lemma has_at_app (u v : list ascii) :
  has_at (u ++ v) = has_at u || has_at v.
Proof. apply existsb_app. Qed.

Lemma has_at_spaces (l : list ascii) :
  Forall (fun c => is_space c = true) l -> has_at l = false.
Proof.
  induction 1 as [|c l Hc _ IH]; [reflexivity |]. simpl. rewrite IH.
  destruct (is_char "@" c) eqn:E; [| reflexivity].
  apply at_not_space in E. congruence.
Qed.

Lemma has_at_strip (v : list ascii) : has_at (strip v) = has_at v.
Proof.
  destruct (strip_spec v) as ((l & t & Hv & Hl & Ht) & _).
  rewrite Hv at 2. rewrite !has_at_app.
  rewrite (has_at_spaces l Hl), (has_at_spaces t Ht).
  by rewrite orb_false_r.
Qed.

Lemma has_at_nonempty (v : list ascii) : has_at v = true -> nonempty v = true.
Proof. by destruct v. Qed.



(** X4. Validating an address twice gives what validating it once
    gives. *)
Theorem validate_email_idempotent (v : option string) :
  validate_email (validate_email v) = validate_email v.
Proof.
  destruct v as [s|]; [| reflexivity].
  unfold validate_email at 2 3.
  destruct (nonempty (chars s) && has_at (chars s)) eqn:E.
  - apply andb_true_iff in E as [_ Hat].
    unfold validate_email. rewrite chars_text.
    set (r := strip (lower (chars s))).
    assert (Hr : has_at r = true)
      by (unfold r; by rewrite has_at_strip, has_at_lower).
    rewrite Hr, (has_at_nonempty r Hr). simpl.
    rewrite (lower_fixed r).
    + unfold r. by rewrite strip_idempotent.
    + intros c Hc. apply strip_elem in Hc. by apply lower_elem in Hc.
  - unfold validate_email. by rewrite E.
Qed.

(** ** Amounts, further *)

Lemma digit_not_space (c : ascii) : is_digit c = true -> is_space c = false.
Proof. by_char c. Qed.

Lemma digit_not_sign (c : ascii) :
  is_digit c = true ->
  is_char "-" c = false /\ is_char "+" c = false /\ is_char "_" c = false
  /\ is_char "," c = false.
Proof. by_char c. Qed.

Lemma take_drop_digits (ip rest : list ascii) :
  Forall digit ip ->
  (forall c, head rest = Some c -> is_digit c = false) ->
  take_while is_digit (ip ++ rest) = ip
  /\ drop_while is_digit (ip ++ rest) = rest.
Proof.
  intros Hip Hrest. induction Hip as [|a ip Ha _ IH]; simpl.
  - destruct rest as [|c rest]; [done |]. simpl.
    by rewrite (Hrest c eq_refl).
  - rewrite Ha. destruct IH as [-> ->]. done.
Qed.

Lemma amount_chars_plain (neg : bool) (ip : list ascii)
    (fp : option (list ascii)) (c : ascii) :
  Forall digit ip -> Forall digit (default [] fp) ->
  c ∈ amount_chars neg ip fp ->
  is_space c = false /\ is_char "_" c = false.
Proof.
  intros Hip Hfp. unfold amount_chars.
  assert (Hd : forall l, Forall digit l -> c ∈ l ->
               is_space c = false /\ is_char "_" c = false).
  { intros l Hl Hc. assert (H : digit c) by (revert c Hc; by apply Forall_forall).
    split; [by apply digit_not_space | by apply digit_not_sign]. }
  intros [H | [H | H]%elem_of_app]%elem_of_app.
  - destruct neg; [| by apply elem_of_nil in H].
    apply list_elem_of_singleton in H as ->. by vm_compute.
  - by apply (Hd ip).
  - destruct fp as [f|]; [| by apply elem_of_nil in H].
    apply elem_of_cons in H as [-> | H]; [by vm_compute | by apply (Hd f)].
Qed.

Lemma number_part_amount (neg : bool) (ip : list ascii)
    (fp : option (list ascii)) :
  Forall digit ip -> ip ≠ [] -> Forall digit (default [] fp) ->
  number_part neg
    (ip ++ match fp with Some f => "."%char :: f | None => [] end)
  = Some (amount_decimal neg ip fp).
Proof.
  intros Hip Hne Hfp. unfold number_part, amount_decimal.
  destruct fp as [f|]; simpl in Hfp |- *.
  - destruct (take_drop_digits ip ("."%char :: f) Hip) as [-> ->].
    { by intros c [= <-]. }
    change (is_char "." ".") with true. cbv iota.
    destruct (take_drop_digits f [] Hfp) as [Ht Hd]; [done |].
    rewrite app_nil_r in Ht, Hd. rewrite Ht, Hd.
    destruct ip as [|a ip]; [done |]. simpl. do 2 f_equal.
  - destruct (take_drop_digits ip [] Hip) as [Ht Hd]; [done |].
    rewrite Ht, Hd. destruct ip as [|a ip]; [done |]. reflexivity.
Qed.

Lemma Decimal_of_str_amount (neg : bool) (ip : list ascii)
    (fp : option (list ascii)) :
  Forall digit ip -> ip ≠ [] -> Forall digit (default [] fp) ->
  Decimal_of_str (amount_chars neg ip fp) = Some (amount_decimal neg ip fp).
Proof.
  intros Hip Hne Hfp. unfold Decimal_of_str.
  pose proof (amount_chars_plain neg ip fp) as Hplain.
  rewrite strip_id.
  2: { intros c Hc. apply (Hplain c Hip Hfp). apply head_Some in Hc as (l & ->).
       by left. }
  2: { intros c Hc. apply (Hplain c Hip Hfp). apply last_Some in Hc as (l & ->).
       apply elem_of_app. right. by left. }
  rewrite filter_all.
  2: { intros c Hc. destruct (Hplain c Hip Hfp Hc) as [_ ->]. reflexivity. }
  unfold amount_chars. destruct neg; simpl.
  - change (is_char "-" "-") with true. cbv iota.
    by apply number_part_amount.
  - destruct ip as [|a ip]; [done |]. simpl.
    assert (Ha : digit a) by (by inversion Hip).
    destruct (digit_not_sign a Ha) as (-> & -> & _).
    by apply (number_part_amount false (a :: ip) fp).
Qed.

(** X5. Whatever currency signs, letters, blanks and commas a text
    carries: when the digits, points and minus signs left after the
    cleaning read [-]digits[.digits], the amount parsed is that number,
    with as many decimal places as the text shows. *)
Theorem parse_price_reads_amount (s : string) (neg : bool)
    (ip : list ascii) (fp : option (list ascii)) :
  Forall digit ip -> ip ≠ [] -> Forall digit (default [] fp) ->
  remove_commas (re_sub_keep price_keep (chars s)) = amount_chars neg ip fp ->
  parse_price (PyStr s) = PyDecimal (amount_decimal neg ip fp).
Proof.
  intros Hip Hne Hfp Hs. unfold parse_price.
  destruct (re_sub_keep price_keep (chars s)) as [|c r] eqn:E.
  - exfalso. unfold amount_chars in Hs. simpl in Hs.
    destruct neg; [discriminate |]. destruct ip; [done | discriminate].
  - cbn [nonempty]. rewrite Hs. by rewrite Decimal_of_str_amount.
Qed.

Lemma parse_price_reads_amount_witness :
  parse_price (PyStr "EUR -1,250.5 (net)")
  = PyDecimal (mkDecimal true 12505 (-1)).
Proof.
  apply (parse_price_reads_amount "EUR -1,250.5 (net)" true
           (chars "1250") (Some (chars "5"))).
  - repeat constructor.
  - discriminate.
  - repeat constructor.
  - reflexivity.
Defined.

(** ** Dates, further *)

Lemma date_new_valid (y m d : Z) (dt : date) :
  date_new y m d = Some dt -> valid_date dt /\ dt = mkdate y m d.
Proof.
  unfold date_new, valid_date.
  destruct ((1 <=? y) && (y <=? 9999) && (1 <=? m) && (m <=? 12)
            && (1 <=? d) && (d <=? days_in_month y m)) eqn:E; [| discriminate].
  intros [= <-]. simpl. split; [| reflexivity].
  repeat (apply andb_true_iff in E as [E ?]). lia.
Qed.

Lemma build_date_valid (first : bool) (groups : list (list ascii)) (d : date) :
  build_date first groups = Some d -> valid_date d.
Proof.
  unfold build_date.
  destruct groups as [|g0 [|g1 [|g2 [|? ?]]]]; try discriminate.
  destruct first; intros H; by apply date_new_valid in H as [H _].
Qed.

Lemma parse_date_loop_valid (ps : list pattern) (v : list ascii) (d : date) :
  parse_date_loop ps v = Some d -> valid_date d.
Proof.
  induction ps as [|p ps IH]; [discriminate |]. simpl.
  destruct (try_pattern p v) as [d'|] eqn:E; [| exact IH].
  intros [= <-]. unfold try_pattern in E.
  destruct (re_search p v); [| discriminate]. by apply build_date_valid in E.
Qed.

(** X6. A date that [parse_date] reads out of a text is a date of the
    calendar: year 1 to 9999, month 1 to 12, and a day the month has in
    that year. *)
Theorem parse_date_gives_calendar_date (s : string) (d : date) :
  parse_date (PyStr s) = PyDate d -> valid_date d.
Proof.
  unfold parse_date.
  destruct (parse_date_loop date_patterns (chars s)) as [d'|] eqn:E;
    [| discriminate].
  intros [= <-]. by apply parse_date_loop_valid in E.
Qed.

Lemma parse_date_gives_calendar_date_witness :
  parse_date (PyStr "paid 02/29/2024") = PyDate (mkdate 2024 2 29)
  /\ valid_date (mkdate 2024 2 29).
Proof.
  assert (H : parse_date (PyStr "paid 02/29/2024") = PyDate (mkdate 2024 2 29))
    by (vm_compute; reflexivity).
  split; [exact H |].
  apply (parse_date_gives_calendar_date "paid 02/29/2024" _ H).
Defined.

Lemma match_here_needs_digit (lo hi : nat) (p : pattern) (v : list ascii) :
  (forall c, head v = Some c -> is_digit c = false) ->
  match_here (Digits (S lo) hi :: p) v = None.
Proof.
  intros H. simpl.
  assert (E : take_while is_digit (firstn hi v) = []).
  { destruct v as [|c v], hi as [|hi]; try reflexivity. simpl.
    by rewrite (H c eq_refl). }
  rewrite E. reflexivity.
Qed.

Lemma re_search_needs_digit (lo hi : nat) (p : pattern) (v : list ascii) :
  (forall c, c ∈ v -> is_digit c = false) ->
  re_search (Digits (S lo) hi :: p) v = None.
Proof.
  induction v as [|a v IH]; intros H.
  - unfold re_search. by rewrite match_here_needs_digit.
  - cbn [re_search]. rewrite match_here_needs_digit.
    + apply IH. intros c Hc. apply H. by right.
    + intros c [= <-]. apply H. by left.
Qed.

(** X7. A text without a digit, the empty text included, passes
    through [parse_date] unchanged. *)
Theorem parse_date_without_digits (s : string) :
  (forall c, c ∈ chars s -> is_digit c = false) ->
  parse_date (PyStr s) = PyStr s.
Proof.
  intros H. unfold parse_date. rewrite parse_date_loop_none; [reflexivity |].
  intros p Hp. unfold date_patterns in Hp.
  repeat (apply elem_of_cons in Hp as [-> | Hp];
          [by apply re_search_needs_digit |]).
  by apply elem_of_nil in Hp.
Qed.

Lemma parse_date_without_digits_witness :
  (forall c, c ∈ chars "n/a" -> is_digit c = false)
  /\ parse_date (PyStr "n/a") = PyStr "n/a".
Proof.
  assert (H : forall c, c ∈ chars "n/a" -> is_digit c = false).
  { intros c Hc. simpl in Hc.
    repeat (apply elem_of_cons in Hc as [-> | Hc]; [reflexivity |]).
    by apply elem_of_nil in Hc. }
  split; [exact H |]. apply (parse_date_without_digits "n/a" H).
Defined.

Lemma sep_not_digit (c : ascii) : is_sep c = true -> is_digit c = false.
Proof. by_char c. Qed.

(** The first pattern at the head of a text that is exactly a month, a
    day and a year of four digits. *)
Lemma match_here_month_day_year (g0 g1 g2 : list ascii) (s1 s2 : ascii) :
  Forall digit g0 -> Forall digit g1 -> Forall digit g2 ->
  (1 <= List.length g0 <= 2)%nat -> (1 <= List.length g1 <= 2)%nat ->
  List.length g2 = 4%nat ->
  is_sep s1 = true -> is_sep s2 = true ->
  match_here [Digits 1 2; Sep; Digits 1 2; Sep; Digits 4 4]
    (g0 ++ s1 :: g1 ++ s2 :: g2)
  = Some [g0; g1; g2].
Proof.
  intros H0 H1 H2 L0 L1 L2 Hs1 Hs2.
  pose proof (sep_not_digit s1 Hs1) as Hd1.
  pose proof (sep_not_digit s2 Hs2) as Hd2.
  destruct g2 as [|e [|f [|g [|h [|? ?]]]]]; try discriminate L2.
  apply Forall_cons in H2 as (He & H2). apply Forall_cons in H2 as (Hf & H2).
  apply Forall_cons in H2 as (Hg & H2). apply Forall_cons in H2 as (Hh & _).
  unfold digit in *.
  destruct g0 as [|a [|b [|? ?]]]; simpl in L0; try lia;
    destruct g1 as [|c [|d [|? ?]]]; simpl in L1; try lia;
    repeat match goal with
           | H : Forall _ (_ :: _) |- _ => apply Forall_cons in H as (? & H)
           end;
    cbn -[is_digit is_sep];
    repeat match goal with
           | H : is_digit _ = _ |- _ => rewrite !H
           | H : is_sep _ = _ |- _ => rewrite !H
           | |- _ => progress cbn -[is_digit is_sep]
           end;
    reflexivity.
Qed.

Lemma re_search_here (p : pattern) (v : list ascii) (gs : list (list ascii)) :
  match_here p v = Some gs -> re_search p v = Some gs.
Proof. intros H. destruct v; simpl; by rewrite H. Qed.

(** X8. A text that is exactly a month and a day of one or two digits
    and a year of four digits, separated by [/] or [-], is read as that
    month, day and year whenever they name a date of the calendar. *)
Theorem parse_date_month_day_year (g0 g1 g2 : list ascii) (s1 s2 : ascii)
    (d : date) :
  Forall digit g0 -> Forall digit g1 -> Forall digit g2 ->
  (1 <= List.length g0 <= 2)%nat -> (1 <= List.length g1 <= 2)%nat ->
  List.length g2 = 4%nat ->
  is_sep s1 = true -> is_sep s2 = true ->
  date_new (int_of_digits g2) (int_of_digits g0) (int_of_digits g1) = Some d ->
  parse_date (PyStr (text (g0 ++ s1 :: g1 ++ s2 :: g2)))
  = PyDate (mkdate (int_of_digits g2) (int_of_digits g0) (int_of_digits g1)).
Proof.
  intros H0 H1 H2 L0 L1 L2 Hs1 Hs2 Hd.
  unfold parse_date. rewrite chars_text. unfold date_patterns.
  cbn [parse_date_loop]. unfold try_pattern at 1.
  rewrite (re_search_here _ _ _
             (match_here_month_day_year g0 g1 g2 s1 s2 H0 H1 H2 L0 L1 L2
                Hs1 Hs2)).
  change (is_first_pattern [Digits 1 2; Sep; Digits 1 2; Sep; Digits 4 4])
    with true.
  unfold build_date. rewrite L2. cbn [Nat.eqb]. rewrite Hd.
  by apply date_new_valid in Hd as [_ ->].
Qed.

Lemma parse_date_month_day_year_witness :
  parse_date (PyStr "7-4-1999") = PyDate (mkdate 1999 7 4).
Proof.
  apply (parse_date_month_day_year (chars "7") (chars "4") (chars "1999")
           "-" "-" (mkdate 1999 7 4));
    try (repeat constructor); try reflexivity; simpl; lia.
Defined.

(** ** The rows, further *)

Ltac fresh_key H :=
  repeat (apply elem_of_cons in H as [H | H]; [discriminate H |]);
  by apply elem_of_nil in H.

Lemma to_flat_dict_no_row_number (self : StructuredDocument) :
  to_flat_dict self !! "line_item_number" = None.
Proof.
  unfold to_flat_dict.
  destruct (line_items self) as [|first rest];
    (rewrite lookup_update_r; apply dict_fresh; intros H;
     [change ((document_fields self).*1) with document_keys in H;
      unfold document_keys in H; fresh_key H |]);
    rewrite fmap_app in H; simpl in H; fresh_key H.
Qed.

Lemma item_keys_lookup (self : StructuredDocument) (first : LineItem)
    (rest : list LineItem) (i : nat) (k : string) :
  line_items self = first :: rest -> k ∈ item_keys ->
  update (to_flat_dict self)
    (dict (item_fields first ++
           [("line_item_number", PyInt (Z.of_nat i + 1))])) !! k
  = to_flat_dict self !! k.
Proof.
  intros Hitems Hk.
  destruct (to_flat_dict_first_item self first rest Hitems)
    as (F1 & F2 & F3 & F4 & F5 & F6 & _).
  destruct (item_row_spec self i first) as (_ & R1 & R2 & R3 & R4 & R5 & R6 & _).
  unfold item_keys in Hk.
  repeat (apply elem_of_cons in Hk as [-> | Hk]; [congruence |]).
  by apply elem_of_nil in Hk.
Qed.

(** X9. The first row of [to_line_items_list()], without its
    [line_item_number], is [to_flat_dict()]. *)
Theorem first_row_is_flat_dict (self : StructuredDocument)
    (row : gmap string pyval) :
  to_line_items_list self !! 0%nat = Some row ->
  delete "line_item_number" row = to_flat_dict self.
Proof.
  intros Hrow. destruct (line_items self) as [|first rest] eqn:Hitems.
  - unfold to_line_items_list in Hrow. rewrite Hitems in Hrow.
    injection Hrow as <-. apply delete_id, to_flat_dict_no_row_number.
  - rewrite (to_line_items_list_lookup self 0 first) in Hrow
      by (by rewrite Hitems).
    injection Hrow as <-. apply map_eq. intros k.
    destruct (decide (k = "line_item_number")) as [-> | Hne].
    + by rewrite lookup_delete_eq, to_flat_dict_no_row_number.
    + rewrite lookup_delete_ne by done.
      destruct (decide (k ∈ item_keys)) as [Hk | Hk].
      * by apply (item_keys_lookup self first rest).
      * destruct (item_row_spec self 0 first) as (_ & _ & _ & _ & _ & _ & _ & H).
        by apply H.
Qed.

Lemma first_row_is_flat_dict_witness :
  exists row, to_line_items_list free_document !! 0%nat = Some row
              /\ delete "line_item_number" row = to_flat_dict free_document.
Proof.
  eexists. split; [reflexivity |].
  apply (first_row_is_flat_dict free_document). reflexivity.
Defined.

Lemma to_flat_dict_total (self : StructuredDocument) :
  to_flat_dict self !! "total_line_items"
  = Some (PyInt (Z.of_nat (List.length (line_items self)))).
Proof.
  destruct (line_items self) as [|first rest] eqn:Hitems.
  - by destruct (to_flat_dict_no_item self Hitems) as [_ ->].
  - destruct (to_flat_dict_first_item self first rest Hitems)
      as (_ & _ & _ & _ & _ & _ & ->).
    by rewrite Hitems.
Qed.

(** X10. Every row of a document carries, as [total_line_items], the
    number of its line items; the document gives that many rows, and
    one row when it has no line item. *)
Theorem rows_carry_item_count (self : StructuredDocument)
    (row : gmap string pyval) :
  row ∈ to_line_items_list self ->
  row !! "total_line_items"
  = Some (PyInt (Z.of_nat (List.length (line_items self))))
  /\ List.length (to_line_items_list self)
     = Nat.max 1 (List.length (line_items self)).
Proof.
  intros Hrow. destruct (line_items self) as [|first rest] eqn:Hitems.
  - unfold to_line_items_list in *. rewrite Hitems in *.
    apply list_elem_of_singleton in Hrow as ->. split; [| reflexivity].
    by rewrite to_flat_dict_total, Hitems.
  - split.
    + apply to_line_items_list_elem in Hrow as (i & item & _ & ->);
        [| by rewrite Hitems].
      destruct (item_row_spec self i item) as (_ & _ & _ & _ & _ & _ & _ & H).
      rewrite H, to_flat_dict_total, Hitems; [reflexivity |].
      split; [| discriminate]. intros Hk. unfold item_keys in Hk. fresh_key Hk.
    + unfold to_line_items_list. rewrite Hitems, length_imap. simpl. lia.
Qed.

Lemma rows_carry_item_count_witness :
  to_flat_dict empty_document ∈ to_line_items_list empty_document
  /\ to_flat_dict empty_document !! "total_line_items" = Some (PyInt 0)
  /\ List.length (to_line_items_list empty_document) = 1%nat.
Proof.
  assert (H : to_flat_dict empty_document ∈ to_line_items_list empty_document)
    by (change (to_line_items_list empty_document)
          with [to_flat_dict empty_document]; by left).
  split; [exact H |].
  apply (rows_carry_item_count empty_document (to_flat_dict empty_document) H).
Defined.

(** ** The callers *)

Lemma lookup_update_inv (d e : gmap string pyval) (k : string) (v : pyval) :
  update d e !! k = Some v -> e !! k = Some v \/ d !! k = Some v.
Proof.
  unfold update. intros H. apply lookup_union_Some_raw in H. tauto.
Qed.

Lemma dict_lookup_inv (items : list (string * pyval)) (k : string) (v : pyval) :
  dict items !! k = Some v -> (k, v) ∈ items.
Proof. apply elem_of_list_to_map_2. Qed.

(** X11. A document built on a failure gives one row: the label and the
    message under [notes], the file name, the time, ["USD"] and a
    [total_line_items] of 0; every other column is [None]. *)
Theorem failure_document_row (label filename message : string)
    (now : datetime) :
  let doc := failure_document label filename message now in
  to_line_items_list doc = [to_flat_dict doc]
  /\ to_flat_dict doc !! "notes" = Some (PyStr (label ++ ": " ++ message))
  /\ to_flat_dict doc !! "source_filename" = Some (PyStr filename)
  /\ to_flat_dict doc !! "processed_at" = Some (PyDatetime now)
  /\ to_flat_dict doc !! "currency" = Some (PyStr "USD")
  /\ to_flat_dict doc !! "total_line_items" = Some (PyInt 0)
  /\ forall (k : string) (v : pyval),
       to_flat_dict doc !! k = Some v ->
       k ∉ ["notes"; "source_filename"; "processed_at"; "currency";
            "total_line_items"] ->
       v = PyNone.
Proof.
  intros doc.
  split; [reflexivity |].
  repeat (split; [vm_compute; reflexivity |]).
  intros k v Hk Hnot.
  unfold to_flat_dict, doc in Hk. cbn [line_items failure_document] in Hk.
  apply lookup_update_inv in Hk as [Hk | Hk]; apply dict_lookup_inv in Hk;
    cbn in Hk;
    repeat (apply elem_of_cons in Hk as [[= -> ->] | Hk];
            [first [reflexivity
                   | exfalso; apply Hnot;
                     repeat first [by left | right] ] |]);
    by apply elem_of_nil in Hk.
Qed.

Lemma failure_document_row_witness :
  to_flat_dict (failure_document "Processing error" "scan.png" "no file" stamp)
    !! "vendor_name" = Some PyNone.
Proof.
  destruct (failure_document_row "Processing error" "scan.png" "no file" stamp)
    as (_ & _ & _ & _ & _ & _ & H).
  destruct (to_flat_dict
              (failure_document "Processing error" "scan.png" "no file" stamp)
              !! "vendor_name") as [v|] eqn:E.
  - f_equal. apply (H "vendor_name" v E). intros Hk. fresh_key Hk.
  - vm_compute in E. discriminate E.
Defined.

Lemma csv_rows_fold (documents : list StructuredDocument)
    (all_items : list (gmap string pyval)) :
  fold_left
    (fun all_items doc =>
       match line_items doc with
       | [] => (all_items ++ [to_flat_dict doc])%list
       | _ => (all_items ++ to_line_items_list doc)%list
       end)
    documents all_items
  = (all_items ++ List.concat (List.map to_line_items_list documents))%list.
Proof.
  revert all_items. induction documents as [|doc rest IH]; intros all_items.
  - simpl. by rewrite app_nil_r.
  - cbn [fold_left List.map List.concat]. rewrite IH, app_assoc. f_equal.
    unfold to_line_items_list. by destruct (line_items doc).
Qed.

Lemma length_concat_rows (documents : list StructuredDocument) :
  List.length (List.concat (List.map to_line_items_list documents))
  = list_sum (List.map (fun doc => Nat.max 1 (List.length (line_items doc)))
                documents).
Proof.
  induction documents as [|doc rest IH]; [reflexivity |].
  simpl List.concat. rewrite length_app, IH. simpl. f_equal.
  unfold to_line_items_list.
  destruct (line_items doc) as [|first items] eqn:E; [reflexivity |].
  rewrite length_imap. simpl. lia.
Qed.

(** X12. For a batch that is not empty, the rows written to the CSV
    are the rows of [to_line_items_list()] of each document, in the
    order of the documents: one row for a document without line items,
    one per line item otherwise. *)
Theorem csv_rows_are_the_documents_rows (documents : list StructuredDocument) :
  documents ≠ [] ->
  csv_rows documents
  = Some (List.concat (List.map to_line_items_list documents))
  /\ (forall rows, csv_rows documents = Some rows ->
        List.length rows
        = list_sum (List.map
                      (fun doc => Nat.max 1 (List.length (line_items doc)))
                      documents)).
Proof.
  intros Hne.
  assert (E : csv_rows documents
              = Some (List.concat (List.map to_line_items_list documents))).
  { unfold csv_rows. destruct documents as [|doc rest]; [done |].
    by rewrite csv_rows_fold. }
  split; [exact E |].
  intros rows Hrows. rewrite E in Hrows. injection Hrows as <-.
  apply length_concat_rows.
Qed.

Lemma csv_rows_are_the_documents_rows_witness :
  [empty_document; free_document] ≠ []
  /\ exists rows, csv_rows [empty_document; free_document] = Some rows
                  /\ List.length rows = 3%nat.
Proof.
  split; [discriminate |].
  destruct (csv_rows_are_the_documents_rows [empty_document; free_document])
    as [E H]; [discriminate |].
  eexists. split; [exact E |]. apply (H _ E).
Defined.

(** ** The summary of [main] *)

Lemma counts_failure (label filename message : string) (now : datetime) :
  label ∈ failure_labels -> filename ≠ "" ->
  counts_as_successful (failure_document label filename message now)
  = Some true.
Proof.
  intros Hlabel Hname. unfold counts_as_successful.
  cbn [source_filename notes failure_document].
  rewrite (chars_nonempty filename Hname).
  unfold failure_labels in Hlabel.
  repeat (apply elem_of_cons in Hlabel as [-> | Hlabel]; [reflexivity |]).
  by apply elem_of_nil in Hlabel.
Qed.

(** X13. The summary counts every document built on a failure as
    successful, whichever of the three labels it carries, as long as
    the file name is not empty: a batch of failures is reported with
    as many successes as documents. *)
Theorem failures_count_as_successful (documents : list StructuredDocument) :
  (forall doc, doc ∈ documents ->
     exists (label filename message : string) (now : datetime),
       label ∈ failure_labels /\ filename ≠ ""
       /\ doc = failure_document label filename message now) ->
  successful documents = Some (List.length documents).
Proof.
  induction documents as [|doc rest IH]; intros H; [reflexivity |].
  destruct (H doc) as (label & filename & message & now & Hl & Hf & ->);
    [by left |].
  simpl. rewrite (counts_failure label filename message now Hl Hf).
  rewrite IH; [reflexivity |]. intros d Hd. apply H. by right.
Qed.

Lemma failures_count_as_successful_witness :
  successful [failure_document "JSON parsing error" "a.png"
                "Expecting value: line 1 column 1 (char 0)" stamp;
              failure_document "Extraction error" "b.png" "timeout" stamp]
  = Some 2%nat.
Proof.
  apply failures_count_as_successful. intros doc Hdoc.
  apply elem_of_cons in Hdoc as [-> | Hdoc].
  - exists "JSON parsing error", "a.png",
      "Expecting value: line 1 column 1 (char 0)", stamp.
    split; [by left | split; [discriminate | reflexivity]].
  - apply list_elem_of_singleton in Hdoc as ->.
    exists "Extraction error", "b.png", "timeout", stamp.
    split; [right; by left | split; [discriminate | reflexivity]].
Defined.

Lemma counts_raises (doc : StructuredDocument) :
  counts_as_successful doc = None
  <-> exists f, source_filename doc = Some f /\ f ≠ "" /\ notes doc = None.
Proof.
  unfold counts_as_successful. split.
  - destruct (source_filename doc) as [f|]; [| discriminate].
    destruct f as [|c f]; [discriminate |]. simpl.
    destruct (notes doc); [discriminate |]. intros _.
    exists (String c f). by repeat split.
  - intros (f & -> & Hf & ->). by rewrite (chars_nonempty f Hf).
Qed.

(** X14. The summary raises exactly when some document of the batch
    has a file name that is not empty and no notes. *)
Theorem successful_raises_iff (documents : list StructuredDocument) :
  successful documents = None
  <-> exists doc f, doc ∈ documents /\ source_filename doc = Some f
                    /\ f ≠ "" /\ notes doc = None.
Proof.
  induction documents as [|doc rest IH]; simpl.
  - split; [discriminate |]. intros (d & f & Hd & _). by apply elem_of_nil in Hd.
  - destruct (counts_as_successful doc) as [b|] eqn:E.
    + destruct (successful rest) as [n|].
      * split; [discriminate |]. intros (d & f & Hd & Hf & Hne & Hn).
        apply elem_of_cons in Hd as [-> | Hd].
        -- assert (counts_as_successful doc = None) by (apply counts_raises; eauto).
           congruence.
        -- assert (Some n = None) by (apply IH; eauto 6). discriminate.
      * split; [| reflexivity]. intros _.
        destruct (proj1 IH eq_refl) as (d & f & Hd & H).
        exists d, f. split; [by right | exact H].
    + split; [| reflexivity]. intros _.
      apply counts_raises in E as (f & H). exists doc, f. split; [by left | exact H].
Qed.

(** ** The fences of the model's answer *)

Lemma lstrip_spaces_app (l w : list ascii) :
  Forall (fun c => is_space c = true) l -> lstrip (l ++ w) = lstrip w.
Proof. induction 1 as [|c l Hc _ IH]; [reflexivity |]. simpl. by rewrite Hc. Qed.

Lemma rstrip_app_spaces (w t : list ascii) :
  Forall (fun c => is_space c = true) t -> rstrip (w ++ t) = rstrip w.
Proof.
  intros Ht. unfold rstrip. rewrite rev_app_distr, lstrip_spaces_app; [done |].
  by apply List.Forall_rev.
Qed.

(** [strip] takes off the whitespace around a text that neither starts
    nor ends with whitespace. *)
Lemma strip_around (l w t : list ascii) :
  Forall (fun c => is_space c = true) l ->
  Forall (fun c => is_space c = true) t ->
  (forall c, head w = Some c -> is_space c = false) ->
  (forall c, last w = Some c -> is_space c = false) ->
  strip (l ++ w ++ t) = w.
Proof.
  intros Hl Ht Hh Hlast. unfold strip. rewrite (lstrip_spaces_app l _ Hl).
  destruct w as [|c w].
  - simpl. destruct (lstrip_split t) as (l' & Ht' & _).
    assert (E : lstrip t = []).
    { destruct (lstrip t) as [|a r] eqn:E; [reflexivity |].
      assert (Ha : is_space a = false) by (apply (lstrip_head t); by rewrite E).
      assert (Hin : a ∈ t) by (rewrite Ht'; apply elem_of_app; right; by left).
      pose proof (proj1 (Forall_forall _ _) Ht a Hin) as Hsp. simpl in Hsp.
      congruence. }
    by rewrite E.
  - rewrite lstrip_id by (intros a [= <-]; by apply Hh).
    rewrite (rstrip_app_spaces (c :: w) t Ht). by apply rstrip_id.
Qed.

Lemma is_char_refl (c : ascii) : is_char c c = true.
Proof. unfold is_char. apply N.eqb_refl. Qed.

Lemma startswith_app (p v : list ascii) : startswith p (p ++ v) = true.
Proof.
  induction p as [|c p IH]; [reflexivity |]. simpl. by rewrite is_char_refl.
Qed.

Lemma endswith_app (s v : list ascii) : endswith s (v ++ s) = true.
Proof. unfold endswith. rewrite rev_app_distr. apply startswith_app. Qed.

(** X15. An answer wrapped in the fences [```json] and [```], with any
    whitespace around them, is unwrapped to exactly what stands between
    the fences. *)
Theorem clean_json_text_unwraps (l body t : list ascii) :
  Forall (fun c => is_space c = true) l ->
  Forall (fun c => is_space c = true) t ->
  clean_json_text (l ++ fence_open ++ body ++ fence_close ++ t) = body.
Proof.
  intros Hl Ht. unfold clean_json_text.
  replace (l ++ fence_open ++ body ++ fence_close ++ t)%list
    with (l ++ (fence_open ++ body ++ fence_close) ++ t)%list
    by (by rewrite <- !app_assoc).
  rewrite (strip_around l _ t Hl Ht).
  - rewrite startswith_app.
    change (skipn 7 (fence_open ++ body ++ fence_close))
      with (body ++ fence_close)%list.
    rewrite endswith_app.
    replace (List.length (body ++ fence_close) - 3)%nat
      with (List.length body) by (rewrite length_app; simpl; lia).
    apply take_app_length.
  - by intros c [= <-].
  - intros c. rewrite app_assoc.
    change fence_close with ([ "`"; "`" ] ++ [ "`" ])%char%list.
    rewrite app_assoc, last_snoc. by intros [= <-].
Qed.

Lemma clean_json_text_unwraps_witness :
  clean_json_text (chars " ```json{}``` ") = chars "{}".
Proof.
  apply (clean_json_text_unwraps (chars " ") (chars "{}") (chars " "));
    repeat constructor.
Defined.

(** ** The sections of an image *)

Lemma box_in_list (f : Z -> Z * Z) (n : Z) (box : Z * Z) :
  box ∈ List.map f (seqZ 0 n) <-> exists i, 0 <= i < n /\ box = f i.
Proof.
  rewrite list_elem_of_In, in_map_iff. split.
  - intros (i & <- & Hi). apply list_elem_of_In, elem_of_seqZ in Hi.
    exists i. split; [lia | reflexivity].
  - intros (i & Hi & ->). exists i. split; [reflexivity |].
    apply list_elem_of_In, elem_of_seqZ. lia.
Qed.

(** X16. For a positive number of sections and an overlap that is not
    negative, the split gives that many boxes, each within the image,
    and together they cover the rows from the top down to the end of
    the last full section plus the overlap, or to the bottom of the
    image if that comes first, and no other row. *)
Theorem sections_cover (overlap_of : Z -> Z) (height sections : Z) :
  0 < sections -> 0 <= height -> 0 <= overlap_of (height / sections) ->
  exists boxes,
    split_image_into_sections overlap_of height sections = Some boxes
    /\ Z.of_nat (List.length boxes) = sections
    /\ (forall box, box ∈ boxes -> 0 <= fst box <= snd box /\ snd box <= height)
    /\ (forall y,
          in_some_box boxes y
          <-> 0 <= y < Z.min height
                         (sections * (height / sections)
                          + overlap_of (height / sections))).
Proof.
  intros Hs Hh Ho. unfold split_image_into_sections.
  destruct (sections =? 0) eqn:E; [lia |]. clear E.
  set (sh := height / sections) in *. set (oh := overlap_of sh) in *.
  assert (Hsh : 0 <= sh) by (apply Z.div_pos; lia).
  assert (Hfull : sections * sh <= height)
    by (unfold sh; apply Z.mul_div_le; lia).
  eexists. split; [reflexivity |]. split; [| split].
  - rewrite length_map, length_seqZ. lia.
  - intros box Hbox. apply box_in_list in Hbox as (i & Hi & ->). simpl.
    assert ((i + 1) * sh <= sections * sh) by nia.
    assert (0 <= i * sh) by nia. lia.
  - intros y. unfold in_some_box. split.
    + intros (box & Hbox & Hy). apply box_in_list in Hbox as (i & Hi & ->).
      simpl in Hy. assert ((i + 1) * sh <= sections * sh) by nia. lia.
    + intros Hy.
      destruct (Z_lt_le_dec y (sections * sh)) as [Hin | Hout].
      * assert (Hpos : 0 < sh) by nia.
        exists (Z.max (y / sh * sh - oh) 0,
                Z.min ((y / sh + 1) * sh + oh) height).
        split.
        -- apply box_in_list. exists (y / sh). split; [| reflexivity].
           split; [apply Z.div_pos; lia |].
           apply Z.div_lt_upper_bound; lia.
        -- simpl. pose proof (Z.mul_div_le y sh Hpos).
           pose proof (Z.mul_succ_div_gt y sh Hpos). lia.
      * exists (Z.max ((sections - 1) * sh - oh) 0,
                Z.min ((sections - 1 + 1) * sh + oh) height).
        split.
        -- apply box_in_list. exists (sections - 1). split; [lia | reflexivity].
        -- simpl. replace (sections - 1 + 1) with sections by lia. nia.
Qed.

Lemma sections_cover_witness :
  exists boxes,
    split_image_into_sections (fun _ => 0) 11 3 = Some boxes
    /\ ~ in_some_box boxes 9.
Proof.
  destruct (sections_cover (fun _ => 0) 11 3) as (boxes & E & _ & _ & H);
    [lia | lia | lia |].
  exists boxes. split; [exact E |].
  intros Hin. apply H in Hin. vm_compute in Hin. destruct Hin as [_ Hlt].
  discriminate Hlt.
Defined.

Lemma successful_raises_iff_witness :
  successful [with_items [pen]] = None.
Proof.
  apply (proj2 (successful_raises_iff [with_items [pen]])).
  exists (with_items [pen]), "scan.png".
  split; [by left | split; [reflexivity | split; [discriminate | reflexivity]]].
Defined.
